(** * A category / block CRUD service over SQLite, with an audit log

    Shallow embedding of [main.py]: ten HTTP handlers over three SQLite
    tables ([categories], [blocks], [logs]) and the logging helpers
    [log_to_db] and [app_log] every handler but [get_logs] calls.

    The handlers are straight-line Python over [sqlite3] connections, so
    the embedding is a state-and-exception monad over a [World] that holds
    the database file, the one write transaction SQLite allows at a time,
    and the calls made on the process logger.  Three behaviours of the
    [sqlite3] module are part of the model because the handlers' results
    depend on them:

    - before an INSERT, UPDATE or DELETE the module opens a transaction on
      the connection (its default transaction handling, which [get_db]
      does not change), and the statement takes the database write lock;
      the lock is held until that connection commits or rolls back, also
      when the statement itself failed on a constraint;
    - a second connection that needs the write lock meanwhile waits for
      its busy timeout and then gets [OperationalError] ("database is
      locked"); a handler runs its statements one after the other, so a
      lock held by the handler's own first connection cannot go away while
      its second one waits;
    - binding a Python [int] outside the signed 64-bit range to a [?]
      placeholder raises [OverflowError];
    - binding a Python [str] that UTF-8 cannot encode (one with a
      surrogate code point, which a JSON body can carry) raises
      [UnicodeEncodeError]; the parameters of a statement are bound in
      their order, before the statement runs, and the first that fails
      decides.

    Foreign keys are not enforced (SQLite's default; the code never turns
    the pragma on).  Row ids handed out by AUTOINCREMENT are unbounded in
    the model: the 2^63-1 ceiling takes that many inserts to reach.
    Strings are the UTF-8 bytes of the Python [str] values, a surrogate
    code point being written as the three bytes UTF-8's scheme gives it
    (ED A0..BF xx), which no encodable string contains. *)

From Stdlib Require Import ZArith List String Ascii Bool Lia DecimalString.
Import ListNotations.

Open Scope Z_scope.
Open Scope string_scope.
Open Scope list_scope.

(** ** Data model *)

(** Request bodies ([class Category(BaseModel)], [class Block(BaseModel)]). *)
Record Category := { name : string }.
Record Block := { category_id : Z; title : string; content : string }.

(** Rows of the three tables created at start-up. *)
Record CategoryRow := { cat_id : Z; cat_name : string }.
Record BlockRow :=
  { blk_id : Z; blk_category_id : Z; blk_title : string; blk_content : string }.
Record LogRow :=
  { log_id : Z; log_level : string; log_message : string; log_created_at : string }.

(** The database file: the tables in rowid order and, per table, the
    AUTOINCREMENT counter SQLite keeps in [sqlite_sequence]. *)
Record Store := {
  categories : list CategoryRow;
  blocks : list BlockRow;
  logs : list LogRow;
  seq_categories : Z;
  seq_blocks : Z;
  seq_logs : Z
}.

(** What a handler returns: dicts, lists, ints and strings. *)
#[local] Unset Elimination Schemes.
Inductive json :=
| JInt (z : Z)
| JStr (s : string)
| JList (items : list json)
| JDict (fields : list (string * json)).
#[local] Set Elimination Schemes.

(** Exceptions the [sqlite3] calls of this program can raise. *)
Inductive exn :=
| IntegrityError
| OperationalError
| OverflowError
| UnicodeEncodeError.

Inductive result (A : Type) :=
| Ok (a : A)
| Raise (e : exn).
Arguments Ok {A} a.
Arguments Raise {A} e.

(** Severities of the [logging] module, with their numeric values. *)
Inductive Severity := DEBUG | INFO | WARNING | ERROR.


Definition conn := nat.

(** The state a request runs in. [writer] is the connection that has an
    open write transaction, with its uncommitted view of the database;
    [log_calls] are the calls made on [logger], oldest first; [clock] is
    what CURRENT_TIMESTAMP evaluates to. *)
Record World := {
  disk : Store;
  writer : option (conn * Store);
  next_conn : conn;
  log_calls : list (Severity * string);
  clock : string
}.

(** ** The monad of handlers: state and exceptions *)

Definition M (A : Type) := World -> result A * World.

Definition ret {A} (a : A) : M A := fun w => (Ok a, w).
Definition raise {A} (e : exn) : M A := fun w => (Raise e, w).
Definition bind {A B} (m : M A) (f : A -> M B) : M B :=
  fun w =>
    match m w with
    | (Ok a, w') => f a w'
    | (Raise e, w') => (Raise e, w')
    end.

Declare Scope py_scope.
Delimit Scope py_scope with py.
Notation "x <- m ;; k" := (bind m (fun x => k))
  (at level 61, m at next level, right associativity) : py_scope.
Notation "m ;; k" := (bind m (fun _ => k))
  (at level 61, right associativity) : py_scope.
Open Scope py_scope.

(** [try: body except sqlite3.IntegrityError: handler]. *)
Definition try_except_IntegrityError {A} (body handler : M A) : M A :=
  fun w =>
    match body w with
    | (Raise IntegrityError, w') => handler w'
    | r => r
    end.

(** ** f-strings *)

(** [f"{n}"] for an [int]. *)
Definition str (n : Z) : string := NilEmpty.string_of_int (Z.to_int n).
Arguments str : simpl never.

Definition fstring (parts : list string) : string := String.concat "" parts.
Arguments fstring : simpl never.

(** ** The [sqlite3] layer *)

Definition int64_min : Z := - 2 ^ 63.
Definition int64_max : Z := 2 ^ 63 - 1.

Definition sqlite_int (n : Z) : bool :=
  (int64_min <=? n)%Z && (n <=? int64_max)%Z.
Arguments sqlite_int : simpl never.

(** Binding a Python [int] to a [?] placeholder. *)
Definition bind_int (n : Z) : M unit :=
  if sqlite_int n then ret tt else raise OverflowError.

(** Whether UTF-8 can encode a [str]: it holds no surrogate code point,
    that is, no byte ED followed by a byte from A0 to BF. *)
Definition surrogate_bytes (a b : ascii) : bool :=
  (N_of_ascii a =? 237)%N && (160 <=? N_of_ascii b)%N && (N_of_ascii b <=? 191)%N.

Fixpoint utf8_encodable (s : string) : bool :=
  match s with
  | EmptyString => true
  | String a rest =>
      match rest with
      | EmptyString => true
      | String b _ => if surrogate_bytes a b then false else utf8_encodable rest
      end
  end.
Arguments utf8_encodable : simpl never.

(** Binding a Python [str] to a [?] placeholder. *)
Definition bind_str (s : string) : M unit :=
  if utf8_encodable s then ret tt else raise UnicodeEncodeError.

(** [get_db()]: a new connection on each call. *)
Definition get_db : M conn :=
  fun w =>
    (Ok (next_conn w),
     {| disk := disk w; writer := writer w; next_conn := S (next_conn w);
        log_calls := log_calls w; clock := clock w |}).

(** What connection [c] reads: its own uncommitted changes if it is the
    writer, the committed file otherwise. *)
Definition snapshot (c : conn) (w : World) : Store :=
  match writer w with
  | Some (c', s) => if Nat.eqb c' c then s else disk w
  | None => disk w
  end.

Definition query {A} (c : conn) (q : Store -> A) : M A :=
  fun w => (Ok (q (snapshot c w)), w).

(** First step of a data-changing statement on [c]: the implicit BEGIN and
    the write lock.  The lock is free, already held by [c], or held by
    another connection, in which case the statement fails as locked. *)
Definition begin_write (c : conn) : M unit :=
  fun w =>
    match writer w with
    | None =>
        (Ok tt,
         {| disk := disk w; writer := Some (c, disk w); next_conn := next_conn w;
            log_calls := log_calls w; clock := clock w |})
    | Some (c', _) =>
        if Nat.eqb c' c then (Ok tt, w) else (Raise OperationalError, w)
    end.

(** The statement's change, applied to the writer's view. *)
Definition modify (c : conn) (f : Store -> Store) : M unit :=
  fun w =>
    (Ok tt,
     {| disk := disk w; writer := Some (c, f (snapshot c w));
        next_conn := next_conn w; log_calls := log_calls w; clock := clock w |}).

(** [conn.commit()]. *)
Definition commit (c : conn) : M unit :=
  fun w =>
    match writer w with
    | Some (c', s) =>
        if Nat.eqb c' c
        then (Ok tt,
              {| disk := s; writer := None; next_conn := next_conn w;
                 log_calls := log_calls w; clock := clock w |})
        else (Ok tt, w)
    | None => (Ok tt, w)
    end.

(** [conn.rollback()]. *)
Definition rollback (c : conn) : M unit :=
  fun w =>
    match writer w with
    | Some (c', _) =>
        if Nat.eqb c' c
        then (Ok tt,
              {| disk := disk w; writer := None; next_conn := next_conn w;
                 log_calls := log_calls w; clock := clock w |})
        else (Ok tt, w)
    | None => (Ok tt, w)
    end.

(** [with get_db() as conn: body]: the connection's context manager
    commits when the body ends normally (also by [return]) and rolls back
    when it raises; it does not close the connection. *)
Definition with_db {A} (body : conn -> M A) : M A :=
  c <- get_db ;;
  fun w =>
    match body c w with
    | (Ok a, w') => (commit c ;; ret a) w'
    | (Raise e, w') => (rollback c ;; raise e) w'
    end.

(** The row id AUTOINCREMENT assigns: one more than the largest id the
    table holds or ever held. *)
Definition next_rowid (ids : list Z) (seq : Z) : Z :=
  Z.max (fold_right Z.max 0 ids) seq + 1.

(** ** The SQL statements of the program

    One definition per [cursor.execute] of [main.py], named after the
    statement, returning what the handler then reads from the cursor
    ([fetchone], [fetchall], [lastrowid] or [rowcount]). *)

Definition has_id (i : Z) (r : CategoryRow) : bool := Z.eqb (cat_id r) i.
Definition has_name (n : string) (r : CategoryRow) : bool := String.eqb (cat_name r) n.
Definition blk_has_id (i : Z) (r : BlockRow) : bool := Z.eqb (blk_id r) i.

(** [SELECT id, name FROM categories] with [fetchall()]. *)
Definition select_categories (c : conn) : M (list CategoryRow) :=
  query c categories.

(** [SELECT id, name FROM categories WHERE id = ?] with [fetchone()]; the
    same lookup serves [SELECT id FROM categories WHERE id = ?]. *)
Definition select_category (c : conn) (i : Z) : M (option CategoryRow) :=
  bind_int i ;;
  query c (fun s => find (has_id i) (categories s)).

(** [INSERT INTO categories (name) VALUES (?)], returning [lastrowid].
    [name] is UNIQUE: a taken name fails the statement, which changes
    nothing but leaves the transaction it opened in place. *)
Definition insert_category (c : conn) (n : string) : M Z :=
  bind_str n ;;
  begin_write c ;;
  s <- query c (fun s => s) ;;
  if existsb (has_name n) (categories s) then raise IntegrityError
  else
    let i := next_rowid (map cat_id (categories s)) (seq_categories s) in
    modify c (fun s =>
      {| categories := categories s ++ [{| cat_id := i; cat_name := n |}];
         blocks := blocks s; logs := logs s;
         seq_categories := i; seq_blocks := seq_blocks s; seq_logs := seq_logs s |}) ;;
    ret i.

(** [UPDATE categories SET name = ? WHERE id = ?], returning [rowcount]:
    the number of rows matched, whether or not the name changes.  Giving a
    row the name of another row violates UNIQUE. *)
Definition update_category_row (i : Z) (n : string) (r : CategoryRow) : CategoryRow :=
  if has_id i r then {| cat_id := cat_id r; cat_name := n |} else r.

Definition sql_update_category (c : conn) (n : string) (i : Z) : M Z :=
  bind_str n ;;
  bind_int i ;;
  begin_write c ;;
  s <- query c (fun s => s) ;;
  if existsb (has_id i) (categories s)
     && existsb (fun r => negb (has_id i r) && has_name n r) (categories s)
  then raise IntegrityError
  else
    modify c (fun s =>
      {| categories := map (update_category_row i n) (categories s);
         blocks := blocks s; logs := logs s;
         seq_categories := seq_categories s; seq_blocks := seq_blocks s;
         seq_logs := seq_logs s |}) ;;
    ret (Z.of_nat (List.length (filter (has_id i) (categories s)))).

(** [DELETE FROM categories WHERE id = ?], returning [rowcount].  No
    foreign key is enforced, so blocks of the category are not looked at. *)
Definition sql_delete_category (c : conn) (i : Z) : M Z :=
  bind_int i ;;
  begin_write c ;;
  s <- query c (fun s => s) ;;
  modify c (fun s =>
    {| categories := filter (fun r => negb (has_id i r)) (categories s);
       blocks := blocks s; logs := logs s;
       seq_categories := seq_categories s; seq_blocks := seq_blocks s;
       seq_logs := seq_logs s |}) ;;
  ret (Z.of_nat (List.length (filter (has_id i) (categories s)))).

(** [SELECT b.id, b.category_id, b.title, b.content, c.name as category_name
     FROM blocks b JOIN categories c ON b.category_id = c.id]:
    an inner join, one result row per pair of a block and a category with
    that id. *)
Definition join_blocks_categories (s : Store) : list (BlockRow * string) :=
  flat_map
    (fun b =>
       map (fun c => (b, cat_name c))
           (filter (has_id (blk_category_id b)) (categories s)))
    (blocks s).

Definition select_blocks_joined (c : conn) : M (list (BlockRow * string)) :=
  query c join_blocks_categories.

(** [INSERT INTO blocks (category_id, title, content) VALUES (?, ?, ?)],
    returning [lastrowid]. *)
Definition insert_block (c : conn) (b : Block) : M Z :=
  bind_int (category_id b) ;;
  bind_str (title b) ;;
  bind_str (content b) ;;
  begin_write c ;;
  s <- query c (fun s => s) ;;
  let i := next_rowid (map blk_id (blocks s)) (seq_blocks s) in
  modify c (fun s =>
    {| categories := categories s;
       blocks := blocks s ++ [{| blk_id := i; blk_category_id := category_id b;
                                 blk_title := title b; blk_content := content b |}];
       logs := logs s;
       seq_categories := seq_categories s; seq_blocks := i; seq_logs := seq_logs s |}) ;;
  ret i.

(** [UPDATE blocks SET category_id = ?, title = ?, content = ? WHERE id = ?],
    returning [rowcount]. *)
Definition update_block_row (i : Z) (b : Block) (r : BlockRow) : BlockRow :=
  if blk_has_id i r
  then {| blk_id := blk_id r; blk_category_id := category_id b;
          blk_title := title b; blk_content := content b |}
  else r.

Definition sql_update_block (c : conn) (b : Block) (i : Z) : M Z :=
  bind_int (category_id b) ;;
  bind_str (title b) ;;
  bind_str (content b) ;;
  bind_int i ;;
  begin_write c ;;
  s <- query c (fun s => s) ;;
  modify c (fun s =>
    {| categories := categories s;
       blocks := map (update_block_row i b) (blocks s);
       logs := logs s;
       seq_categories := seq_categories s; seq_blocks := seq_blocks s;
       seq_logs := seq_logs s |}) ;;
  ret (Z.of_nat (List.length (filter (blk_has_id i) (blocks s)))).

(** [DELETE FROM blocks WHERE id = ?], returning [rowcount]. *)
Definition sql_delete_block (c : conn) (i : Z) : M Z :=
  bind_int i ;;
  begin_write c ;;
  s <- query c (fun s => s) ;;
  modify c (fun s =>
    {| categories := categories s;
       blocks := filter (fun r => negb (blk_has_id i r)) (blocks s);
       logs := logs s;
       seq_categories := seq_categories s; seq_blocks := seq_blocks s;
       seq_logs := seq_logs s |}) ;;
  ret (Z.of_nat (List.length (filter (blk_has_id i) (blocks s)))).

(** [INSERT INTO logs (level, message) VALUES (?, ?)]; [created_at] takes
    its default, CURRENT_TIMESTAMP.  The level the handlers pass is a
    literal and the message is made of literals, integers and strings the
    same request has bound before. *)
Definition new_log_row (s : Store) (level message now : string) : LogRow :=
  {| log_id := next_rowid (map log_id (logs s)) (seq_logs s);
     log_level := level; log_message := message; log_created_at := now |}.

Definition append_log (level message now : string) (s : Store) : Store :=
  {| categories := categories s; blocks := blocks s;
     logs := logs s ++ [new_log_row s level message now];
     seq_categories := seq_categories s; seq_blocks := seq_blocks s;
     seq_logs := log_id (new_log_row s level message now) |}.

Definition insert_log (c : conn) (level message : string) : M unit :=
  begin_write c ;;
  fun w => modify c (append_log level message (clock w)) w.

(** [SELECT id, level, message, created_at FROM logs ORDER BY created_at DESC].
    [created_at] is stored as text and compared as text; rows with equal
    timestamps come in rowid order. *)
Fixpoint insert_desc (r : LogRow) (sorted : list LogRow) : list LogRow :=
  match sorted with
  | [] => [r]
  | r' :: rest =>
      if String.ltb (log_created_at r') (log_created_at r)
      then r :: r' :: rest
      else r' :: insert_desc r rest
  end.

Definition order_by_created_at_desc (rows : list LogRow) : list LogRow :=
  fold_left (fun sorted r => insert_desc r sorted) rows [].

Definition select_logs (c : conn) : M (list LogRow) :=
  query c (fun s => order_by_created_at_desc (logs s)).

(** ** Logging *)

(** [logger.info], [logger.warning], [logger.error], [logger.debug]: the
    call is recorded with the severity of the method. *)
Definition logger_log (sev : Severity) (message : string) : M unit :=
  fun w =>
    (Ok tt,
     {| disk := disk w; writer := writer w; next_conn := next_conn w;
        log_calls := log_calls w ++ [(sev, message)]; clock := clock w |}).


(** ** The handlers

    The handlers are written over the routine that persists a log row, the
    way the module's functions reach [log_to_db] through the module's
    global of that name.  The service binds it to [log_to_db] below. *)

Module Handlers.
Section PersistedLog.

Variable log_to_db : string -> string -> M unit.

Definition app_log (level message : string) : M unit :=
  (if String.eqb level "info" then logger_log INFO message
   else if String.eqb level "warning" then logger_log WARNING message
   else if String.eqb level "error" then logger_log ERROR message
   else logger_log DEBUG message) ;;
  log_to_db level message.

(** [dict(row)] for the rows of each query. *)
Definition category_dict (r : CategoryRow) : json :=
  JDict [("id", JInt (cat_id r)); ("name", JStr (cat_name r))].

Definition joined_block_dict (r : BlockRow * string) : json :=
  JDict [("id", JInt (blk_id (fst r)));
         ("category_id", JInt (blk_category_id (fst r)));
         ("title", JStr (blk_title (fst r)));
         ("content", JStr (blk_content (fst r)));
         ("category_name", JStr (snd r))].

Definition log_dict (r : LogRow) : json :=
  JDict [("id", JInt (log_id r)); ("level", JStr (log_level r));
         ("message", JStr (log_message r));
         ("created_at", JStr (log_created_at r))].

Definition error (message : string) : json := JDict [("error", JStr message)].

Definition block_dict (i : Z) (block : Block) : json :=
  JDict [("id", JInt i); ("category_id", JInt (category_id block));
         ("title", JStr (title block)); ("content", JStr (content block))].

(** GET /categories *)
Definition get_categories : M json :=
  rows <- with_db (fun conn => select_categories conn) ;;
  app_log "info" "Tüm kategoriler getirildi" ;;
  ret (JList (map category_dict rows)).

(** GET /categories/{category_id} *)
Definition get_category (category_id : Z) : M json :=
  row <- with_db (fun conn => select_category conn category_id) ;;
  match row with
  | Some r =>
      app_log "info" (fstring ["Kategori getirildi: id="; str category_id]) ;;
      ret (category_dict r)
  | None =>
      app_log "warning" (fstring ["Kategori bulunamadı: id="; str category_id]) ;;
      ret (error (fstring ["Category "; str category_id; " not found"]))
  end.

(** POST /categories.  Both branches of the [try] run inside the [with]
    block; the [except] branch runs after the INSERT has failed and
    before anything ends the transaction that INSERT opened. *)
Definition add_category (category : Category) : M json :=
  with_db (fun conn =>
    try_except_IntegrityError
      (new_id <- insert_category conn (name category) ;;
       commit conn ;;
       app_log "info"
         (fstring ["Kategori eklendi: "; name category; " (id="; str new_id; ")"]) ;;
       ret (JDict [("id", JInt new_id); ("name", JStr (name category))]))
      (app_log "warning" (fstring ["Kategori zaten mevcut: "; name category]) ;;
       ret (error "Bu kategori zaten mevcut"))).

(** PUT /categories/{category_id}.  The [with] block either returns the
    error dict ([Some]) or falls through ([None]). *)
Definition update_category (category_id : Z) (category : Category) : M json :=
  returned <- with_db (fun conn =>
    rowcount <- sql_update_category conn (name category) category_id ;;
    commit conn ;;
    if Z.eqb rowcount 0 then
      app_log "warning"
        (fstring ["Güncellenmek istenen kategori bulunamadı: id="; str category_id]) ;;
      ret (Some (error (fstring ["Category "; str category_id; " not found"])))
    else ret None) ;;
  match returned with
  | Some response => ret response
  | None =>
      app_log "info"
        (fstring ["Kategori güncellendi: id="; str category_id;
                  ", yeni ad="; name category]) ;;
      ret (JDict [("id", JInt category_id); ("name", JStr (name category))])
  end.

(** DELETE /categories/{category_id} *)
Definition delete_category (category_id : Z) : M json :=
  returned <- with_db (fun conn =>
    rowcount <- sql_delete_category conn category_id ;;
    commit conn ;;
    if Z.eqb rowcount 0 then
      app_log "warning"
        (fstring ["Silinmek istenen kategori bulunamadı: id="; str category_id]) ;;
      ret (Some (error (fstring ["Category "; str category_id; " not found"])))
    else ret None) ;;
  match returned with
  | Some response => ret response
  | None =>
      app_log "info" (fstring ["Kategori silindi: id="; str category_id]) ;;
      ret (JDict [("message", JStr (fstring ["Category "; str category_id; " deleted"]))])
  end.

(** GET /blocks *)
Definition get_blocks : M json :=
  rows <- with_db (fun conn => select_blocks_joined conn) ;;
  app_log "info" "Tüm bloklar getirildi" ;;
  ret (JList (map joined_block_dict rows)).

(** POST /blocks.  The [with] block either returns the error dict
    ([inl]) or leaves [new_id] behind ([inr]). *)
Definition add_block (block : Block) : M json :=
  returned <- with_db (fun conn =>
    category <- select_category conn (category_id block) ;;
    match category with
    | None =>
        app_log "warning"
          (fstring ["Geçersiz kategori id ile blok ekleme denemesi: ";
                    str (category_id block)]) ;;
        ret (inl (error "Geçersiz kategori id"))
    | Some _ =>
        new_id <- insert_block conn block ;;
        commit conn ;;
        ret (inr new_id)
    end) ;;
  match returned with
  | inl response => ret response
  | inr new_id =>
      app_log "info"
        (fstring ["Blok eklendi: id="; str new_id; ", kategori="; str (category_id block);
                  ", başlık="; title block; ", içerik="; content block]) ;;
      ret (block_dict new_id block)
  end.

(** PUT /blocks/{block_id} *)
Definition update_block (block_id : Z) (block : Block) : M json :=
  returned <- with_db (fun conn =>
    rowcount <- sql_update_block conn block block_id ;;
    commit conn ;;
    if Z.eqb rowcount 0 then
      app_log "warning"
        (fstring ["Güncellenmek istenen blok bulunamadı: id="; str block_id]) ;;
      ret (Some (error (fstring ["Block "; str block_id; " not found"])))
    else ret None) ;;
  match returned with
  | Some response => ret response
  | None =>
      app_log "info"
        (fstring ["Blok güncellendi: id="; str block_id; ", kategori=";
                  str (category_id block); ", başlık="; title block;
                  ", içerik="; content block]) ;;
      ret (block_dict block_id block)
  end.

(** DELETE /blocks/{block_id} *)
Definition delete_block (block_id : Z) : M json :=
  returned <- with_db (fun conn =>
    rowcount <- sql_delete_block conn block_id ;;
    commit conn ;;
    if Z.eqb rowcount 0 then
      app_log "warning"
        (fstring ["Silinmek istenen blok bulunamadı: id="; str block_id]) ;;
      ret (Some (error (fstring ["Block "; str block_id; " not found"])))
    else ret None) ;;
  match returned with
  | Some response => ret response
  | None =>
      app_log "info" (fstring ["Blok silindi: id="; str block_id]) ;;
      ret (JDict [("message", JStr (fstring ["Block "; str block_id; " deleted"]))])
  end.

(** GET /logs: the one handler that does not call [app_log]. *)
Definition get_logs : M json :=
  rows <- with_db (fun conn => select_logs conn) ;;
  ret (JList (map log_dict rows)).

End PersistedLog.
End Handlers.

(** [log_to_db]: its own connection, one INSERT, [commit]. *)
Definition log_to_db (level message : string) : M unit :=
  with_db (fun conn => insert_log conn level message ;; commit conn).

Definition app_log := Handlers.app_log log_to_db.
Definition get_categories := Handlers.get_categories log_to_db.
Definition get_category := Handlers.get_category log_to_db.
Definition add_category := Handlers.add_category log_to_db.
Definition update_category := Handlers.update_category log_to_db.
Definition delete_category := Handlers.delete_category log_to_db.
Definition get_blocks := Handlers.get_blocks log_to_db.
Definition add_block := Handlers.add_block log_to_db.
Definition update_block := Handlers.update_block log_to_db.
Definition delete_block := Handlers.delete_block log_to_db.
Definition get_logs := Handlers.get_logs.

(** ** The HTTP surface *)

(** The routes declared with [@app.get], [@app.post], [@app.put] and
    [@app.delete], with the arguments the framework passes in. *)
Inductive request :=
| GET_categories
| GET_category (category_id : Z)
| POST_categories (category : Category)
| PUT_category (category_id : Z) (category : Category)
| DELETE_category (category_id : Z)
| GET_blocks
| POST_blocks (block : Block)
| PUT_block (block_id : Z) (block : Block)
| DELETE_block (block_id : Z)
| GET_logs.

Definition route_with (persist : string -> string -> M unit) (r : request) : M json :=
  match r with
  | GET_categories => Handlers.get_categories persist
  | GET_category i => Handlers.get_category persist i
  | POST_categories c => Handlers.add_category persist c
  | PUT_category i c => Handlers.update_category persist i c
  | DELETE_category i => Handlers.delete_category persist i
  | GET_blocks => Handlers.get_blocks persist
  | POST_blocks b => Handlers.add_block persist b
  | PUT_block i b => Handlers.update_block persist i b
  | DELETE_block i => Handlers.delete_block persist i
  | GET_logs => Handlers.get_logs
  end.

Definition route : request -> M json := route_with log_to_db.

(** No route sets a status code and no handler raises an HTTP exception:
    a returned value is sent with 200, an exception that leaves the
    handler becomes 500. *)
Definition http_status {A} (r : result A) : Z :=
  match r with Ok _ => 200 | Raise _ => 500 end.

(** A request starts with the database file as the last request left it
    and no transaction open. *)
Definition idle (s : Store) (now : string) : World :=
  {| disk := s; writer := None; next_conn := O; log_calls := []; clock := now |}.

Definition run {A} (h : M A) (s : Store) (now : string) : result A * World :=
  h (idle s now).

Definition outcome {A} (x : result A * World) : result A := fst x.
Definition store_after {A} (x : result A * World) : Store := disk (snd x).

(** * Properties *)

(** ** Lookups of an id no row has *)

Section AbsentId.

Variable i : Z.

Lemma existsb_has_id_absent (l : list CategoryRow) :
  ~ In i (map cat_id l) -> existsb (has_id i) l = false.
Proof.
  induction l as [|r l IH]; cbn; intros H; [reflexivity|].
  unfold has_id at 1.
  destruct (Z.eqb_spec (cat_id r) i) as [E|E]; [tauto|].
  cbn. apply IH. tauto.
Qed.

Lemma find_has_id_absent (l : list CategoryRow) :
  ~ In i (map cat_id l) -> find (has_id i) l = None.
Proof.
  intros H. apply existsb_has_id_absent in H.
  induction l as [|r l IH]; cbn in *; [reflexivity|].
  destruct (has_id i r); cbn in H; [discriminate|auto].
Qed.

Lemma filter_has_id_absent (l : list CategoryRow) :
  ~ In i (map cat_id l) -> filter (has_id i) l = [].
Proof.
  intros H. apply existsb_has_id_absent in H.
  induction l as [|r l IH]; cbn in *; [reflexivity|].
  destruct (has_id i r); cbn in H; [discriminate|auto].
Qed.

Lemma filter_not_has_id_absent (l : list CategoryRow) :
  ~ In i (map cat_id l) -> filter (fun r => negb (has_id i r)) l = l.
Proof.
  intros H. apply existsb_has_id_absent in H.
  induction l as [|r l IH]; cbn in *; [reflexivity|].
  destruct (has_id i r); cbn in *; [discriminate|]. f_equal; auto.
Qed.

Lemma map_update_category_absent (n : string) (l : list CategoryRow) :
  ~ In i (map cat_id l) -> map (update_category_row i n) l = l.
Proof.
  intros H. apply existsb_has_id_absent in H.
  induction l as [|r l IH]; cbn in *; [reflexivity|].
  unfold update_category_row at 1.
  destruct (has_id i r); cbn in *; [discriminate|]. f_equal; auto.
Qed.

Lemma existsb_blk_has_id_absent (l : list BlockRow) :
  ~ In i (map blk_id l) -> existsb (blk_has_id i) l = false.
Proof.
  induction l as [|r l IH]; cbn; intros H; [reflexivity|].
  unfold blk_has_id at 1.
  destruct (Z.eqb_spec (blk_id r) i) as [E|E]; [tauto|].
  cbn. apply IH. tauto.
Qed.

Lemma filter_blk_has_id_absent (l : list BlockRow) :
  ~ In i (map blk_id l) -> filter (blk_has_id i) l = [].
Proof.
  intros H. apply existsb_blk_has_id_absent in H.
  induction l as [|r l IH]; cbn in *; [reflexivity|].
  destruct (blk_has_id i r); cbn in H; [discriminate|auto].
Qed.

Lemma filter_not_blk_has_id_absent (l : list BlockRow) :
  ~ In i (map blk_id l) -> filter (fun r => negb (blk_has_id i r)) l = l.
Proof.
  intros H. apply existsb_blk_has_id_absent in H.
  induction l as [|r l IH]; cbn in *; [reflexivity|].
  destruct (blk_has_id i r); cbn in *; [discriminate|]. f_equal; auto.
Qed.

Lemma map_update_block_absent (b : Block) (l : list BlockRow) :
  ~ In i (map blk_id l) -> map (update_block_row i b) l = l.
Proof.
  intros H. apply existsb_blk_has_id_absent in H.
  induction l as [|r l IH]; cbn in *; [reflexivity|].
  unfold update_block_row at 1.
  destruct (blk_has_id i r); cbn in *; [discriminate|]. f_equal; auto.
Qed.

End AbsentId.

(** ** Running a handler symbolically *)

Ltac unfold_handlers :=
  unfold run, outcome, store_after, route, route_with,
    get_categories, get_category, add_category, update_category,
    delete_category, get_blocks, add_block, update_block, delete_block,
    get_logs, app_log,
    Handlers.get_categories, Handlers.get_category, Handlers.add_category,
    Handlers.update_category, Handlers.delete_category, Handlers.get_blocks,
    Handlers.add_block, Handlers.update_block, Handlers.delete_block,
    Handlers.get_logs, Handlers.app_log,
    log_to_db, with_db, try_except_IntegrityError,
    select_categories, select_category, insert_category, sql_update_category,
    sql_delete_category, select_blocks_joined, insert_block, sql_update_block,
    sql_delete_block, insert_log, select_logs, bind_int, bind_str.

Ltac exec :=
  cbv [bind ret raise get_db query begin_write modify commit rollback
       snapshot idle logger_log];
  cbn [disk writer next_conn log_calls clock Nat.eqb fst snd String.eqb
       Ascii.eqb Bool.eqb andb].

(** The state a request leaves behind when it has written one log row
    and nothing else. *)
Definition logged (s : Store) (sev : Severity) (level message now : string) : World :=
  {| disk := append_log level message now s; writer := None; next_conn := 2%nat;
     log_calls := [(sev, message)]; clock := now |}.

Ltac absent_cat H :=
  repeat (progress
            (rewrite ?(existsb_has_id_absent _ _ H), ?(find_has_id_absent _ _ H),
               ?(filter_has_id_absent _ _ H), ?(filter_not_has_id_absent _ _ H),
               ?(map_update_category_absent _ _ _ H));
          exec).

Ltac absent_blk H :=
  repeat (progress
            (rewrite ?(existsb_blk_has_id_absent _ _ H),
               ?(filter_blk_has_id_absent _ _ H),
               ?(filter_not_blk_has_id_absent _ _ H),
               ?(map_update_block_absent _ _ _ H));
          exec).

Lemma store_eta (s : Store) :
  {| categories := categories s; blocks := blocks s; logs := logs s;
     seq_categories := seq_categories s; seq_blocks := seq_blocks s;
     seq_logs := seq_logs s |} = s.
Proof. destruct s; reflexivity. Qed.

(** ** What each path of the handlers computes *)

Section Runs.

Variables (s : Store) (now : string).

Lemma run_get_categories :
  run get_categories s now =
  (Ok (JList (map Handlers.category_dict (categories s))),
   logged s INFO "info" "Tüm kategoriler getirildi" now).
Proof. unfold_handlers. exec. reflexivity. Qed.

Lemma run_get_blocks :
  run get_blocks s now =
  (Ok (JList (map Handlers.joined_block_dict (join_blocks_categories s))),
   logged s INFO "info" "Tüm bloklar getirildi" now).
Proof. unfold_handlers. exec. reflexivity. Qed.

Lemma run_get_category_miss i :
  sqlite_int i = true -> ~ In i (map cat_id (categories s)) ->
  run (get_category i) s now =
  (Ok (Handlers.error (fstring ["Category "; str i; " not found"])),
   logged s WARNING "warning" (fstring ["Kategori bulunamadı: id="; str i]) now).
Proof.
  intros Hi Ha. unfold_handlers. rewrite Hi. exec. absent_cat Ha. reflexivity.
Qed.

Lemma run_get_category_hit i r :
  sqlite_int i = true -> find (has_id i) (categories s) = Some r ->
  run (get_category i) s now =
  (Ok (Handlers.category_dict r),
   logged s INFO "info" (fstring ["Kategori getirildi: id="; str i]) now).
Proof.
  intros Hi Hf. unfold_handlers. rewrite Hi. exec. rewrite Hf. exec. reflexivity.
Qed.

Lemma run_update_category_miss i c :
  utf8_encodable (name c) = true ->
  sqlite_int i = true -> ~ In i (map cat_id (categories s)) ->
  run (update_category i c) s now =
  (Ok (Handlers.error (fstring ["Category "; str i; " not found"])),
   logged s WARNING "warning"
     (fstring ["Güncellenmek istenen kategori bulunamadı: id="; str i]) now).
Proof.
  intros Hn Hi Ha. unfold_handlers. rewrite Hn, Hi. exec. absent_cat Ha.
  cbn [List.length Z.of_nat Z.eqb]. exec. rewrite store_eta. reflexivity.
Qed.

Lemma run_delete_category_miss i :
  sqlite_int i = true -> ~ In i (map cat_id (categories s)) ->
  run (delete_category i) s now =
  (Ok (Handlers.error (fstring ["Category "; str i; " not found"])),
   logged s WARNING "warning"
     (fstring ["Silinmek istenen kategori bulunamadı: id="; str i]) now).
Proof.
  intros Hi Ha. unfold_handlers. rewrite Hi. exec. absent_cat Ha.
  cbn [List.length Z.of_nat Z.eqb]. exec. rewrite store_eta. reflexivity.
Qed.

Lemma run_update_block_miss i b :
  sqlite_int i = true -> sqlite_int (category_id b) = true ->
  utf8_encodable (title b) = true -> utf8_encodable (content b) = true ->
  ~ In i (map blk_id (blocks s)) ->
  run (update_block i b) s now =
  (Ok (Handlers.error (fstring ["Block "; str i; " not found"])),
   logged s WARNING "warning"
     (fstring ["Güncellenmek istenen blok bulunamadı: id="; str i]) now).
Proof.
  intros Hi Hc Ht Hk Ha. unfold_handlers. rewrite Hi, Hc, Ht, Hk. exec. absent_blk Ha.
  cbn [List.length Z.of_nat Z.eqb]. exec. rewrite store_eta. reflexivity.
Qed.

Lemma run_delete_block_miss i :
  sqlite_int i = true -> ~ In i (map blk_id (blocks s)) ->
  run (delete_block i) s now =
  (Ok (Handlers.error (fstring ["Block "; str i; " not found"])),
   logged s WARNING "warning"
     (fstring ["Silinmek istenen blok bulunamadı: id="; str i]) now).
Proof.
  intros Hi Ha. unfold_handlers. rewrite Hi. exec. absent_blk Ha.
  cbn [List.length Z.of_nat Z.eqb]. exec. rewrite store_eta. reflexivity.
Qed.

Lemma run_add_block_unknown_category b :
  sqlite_int (category_id b) = true ->
  ~ In (category_id b) (map cat_id (categories s)) ->
  run (add_block b) s now =
  (Ok (Handlers.error "Geçersiz kategori id"),
   logged s WARNING "warning"
     (fstring ["Geçersiz kategori id ile blok ekleme denemesi: ";
               str (category_id b)]) now).
Proof.
  intros Hc Ha. unfold_handlers. rewrite Hc. exec. absent_cat Ha. reflexivity.
Qed.

(** The duplicate-name path of [add_category]: the INSERT fails and
    leaves connection 0 as the writer; [app_log] records the warning on
    the logger and then [log_to_db], on connection 1, cannot take the
    write lock. *)
Lemma run_add_category_taken_name c :
  utf8_encodable (name c) = true ->
  existsb (has_name (name c)) (categories s) = true ->
  run (add_category c) s now =
  (Raise OperationalError,
   {| disk := s; writer := None; next_conn := 2%nat;
      log_calls := [(WARNING, fstring ["Kategori zaten mevcut: "; name c])];
      clock := now |}).
Proof.
  intros He Hn. unfold_handlers. rewrite He. exec. rewrite Hn. exec. reflexivity.
Qed.

End Runs.

(** Case analysis on the tests a handler makes, for properties that hold
    on every path. *)
Ltac split_cond :=
  match goal with
  | |- context [if sqlite_int ?n then _ else _] => destruct (sqlite_int n) eqn:?
  | |- context [if utf8_encodable ?n then _ else _] =>
      destruct (utf8_encodable n) eqn:?
  | |- context [match find ?f ?l with _ => _ end] => destruct (find f l) eqn:?
  | |- context [if (existsb ?f ?l && existsb ?g ?l2)%bool then _ else _] =>
      destruct (existsb f l && existsb g l2)%bool eqn:?
  | |- context [if existsb ?f ?l then _ else _] => destruct (existsb f l) eqn:?
  | |- context [if Z.eqb ?a 0 then _ else _] => destruct (Z.eqb a 0) eqn:?
  end.

Ltac crunch := unfold_handlers; exec; repeat (split_cond; exec).

(** ** Scenario stores

    The database after the requests of the specification's scenarios, on
    a new database file. *)

Definition empty_store : Store :=
  {| categories := []; blocks := []; logs := [];
     seq_categories := 0; seq_blocks := 0; seq_logs := 0 |}.

Definition Recipes : Category := {| name := "Recipes" |}.
Definition block_T : Block := {| category_id := 1; title := "T"; content := "C" |}.

(** After POST /categories {"name": "Recipes"}. *)
Definition store_with_recipes : Store :=
  Eval vm_compute in
    store_after (run (add_category Recipes) empty_store "2024-05-01 10:00:00").

(** After POST /blocks {"category_id": 1, "title": "T", "content": "C"}. *)
Definition store_with_block : Store :=
  Eval vm_compute in
    store_after (run (add_block block_T) store_with_recipes "2024-05-01 10:00:01").

Example store_with_recipes_rows :
  categories store_with_recipes = [{| cat_id := 1; cat_name := "Recipes" |}]
  /\ map log_level (logs store_with_recipes) = ["info"].
Proof. split; reflexivity. Qed.

Example store_with_block_rows :
  blocks store_with_block =
    [{| blk_id := 1; blk_category_id := 1; blk_title := "T"; blk_content := "C" |}]
  /\ outcome (run get_blocks store_with_block "2024-05-01 10:00:02") =
     Ok (JList [JDict [("id", JInt 1); ("category_id", JInt 1); ("title", JStr "T");
                       ("content", JStr "C"); ("category_name", JStr "Recipes")]]).
Proof. split; reflexivity. Qed.

(** ** Supporting facts about the tables *)

Lemma existsb_has_name_taken (n : string) (l : list CategoryRow) :
  In n (map cat_name l) -> existsb (has_name n) l = true.
Proof.
  intros H. apply in_map_iff in H. destruct H as [r [E Hr]].
  apply existsb_exists. exists r. split; [assumption|].
  unfold has_name. apply String.eqb_eq. assumption.
Qed.

(** Each row of the join pairs a block with a category of its id. *)
Lemma join_row_category (s : Store) (b : BlockRow) (n : string) :
  In (b, n) (join_blocks_categories s) ->
  In b (blocks s)
  /\ exists c, In c (categories s) /\ cat_id c = blk_category_id b /\ cat_name c = n.
Proof.
  unfold join_blocks_categories. intros H.
  apply in_flat_map in H. destruct H as [b' [Hb H]].
  apply in_map_iff in H. destruct H as [c [E Hc]].
  injection E as -> <-.
  apply filter_In in Hc. destruct Hc as [Hc Hid].
  split; [assumption|]. exists c. repeat split; [assumption|].
  unfold has_id in Hid. apply Z.eqb_eq in Hid. assumption.
Qed.

Lemma join_category_row (s : Store) (b : BlockRow) (c : CategoryRow) :
  In b (blocks s) -> In c (categories s) -> cat_id c = blk_category_id b ->
  In (b, cat_name c) (join_blocks_categories s).
Proof.
  intros Hb Hc E. unfold join_blocks_categories.
  apply in_flat_map. exists b. split; [assumption|].
  apply in_map_iff. exists c. split; [reflexivity|].
  apply filter_In. split; [assumption|].
  unfold has_id. apply Z.eqb_eq. assumption.
Qed.

(** AUTOINCREMENT never hands out an id the table holds. *)
Lemma fold_max_ge (ids : list Z) (x : Z) : In x ids -> x <= fold_right Z.max 0 ids.
Proof.
  induction ids as [|y ids IH]; cbn; [tauto|].
  intros [->|H]; [lia|]. specialize (IH H). lia.
Qed.

Lemma next_rowid_fresh (ids : list Z) (seq x : Z) : In x ids -> x < next_rowid ids seq.
Proof.
  intros H. apply fold_max_ge in H. unfold next_rowid. lia.
Qed.

Lemma find_appended_fresh (l : list CategoryRow) (r : CategoryRow) :
  ~ In (cat_id r) (map cat_id l) -> find (has_id (cat_id r)) (l ++ [r]) = Some r.
Proof.
  intros H. induction l as [|x l IH]; cbn.
  - unfold has_id. rewrite Z.eqb_refl. reflexivity.
  - cbn in H. unfold has_id at 1.
    destruct (Z.eqb_spec (cat_id x) (cat_id r)) as [E|E]; [tauto|].
    apply IH. tauto.
Qed.

(** A response dict whose first key is "error". *)
Definition is_error (response : json) : bool :=
  match response with
  | JDict ((key, _) :: _) => String.eqb key "error"
  | _ => false
  end.

(** Whenever a category or block handler returns, it has written one log
    row: "warning" with an error dict, "info" with anything else. *)
Lemma response_log_row (r : request) (s : Store) (now : string) (response : json) :
  outcome (run (route r) s now) = Ok response -> r <> GET_logs ->
  exists row,
    logs (store_after (run (route r) s now)) = logs s ++ [row]
    /\ log_level row = if is_error response then "warning" else "info".
Proof.
  destruct r; crunch; intros H Hr; try discriminate H; try congruence.
  all: injection H as <-; cbn [append_log logs disk]; eexists; split; reflexivity.
Qed.

(** ** Creating a category whose name is taken (C1) *)

(** C1. For every store and every name some category row already has
    (a name UTF-8 can encode, as every name the service stored is),
    [add_category] does not return the conflict dict: its [except] branch
    calls [app_log] while the failed INSERT still holds the write lock, so
    [log_to_db] raises OperationalError and the request ends with that
    exception (status 500).  No category row and no log row is written,
    the warning reaches the process logger only, and what the category
    list returns is unchanged. *)
Theorem add_category_taken_name_raises (s : Store) (now : string) (c : Category) :
  utf8_encodable (name c) = true ->
  In (name c) (map cat_name (categories s)) ->
  outcome (run (add_category c) s now) = Raise OperationalError
  /\ http_status (outcome (run (add_category c) s now)) = 500
  /\ store_after (run (add_category c) s now) = s
  /\ log_calls (snd (run (add_category c) s now)) =
       [(WARNING, fstring ["Kategori zaten mevcut: "; name c])]
  /\ outcome (run get_categories (store_after (run (add_category c) s now)) now) =
       outcome (run get_categories s now).
Proof.
  intros He Hn. apply existsb_has_name_taken in Hn.
  rewrite (run_add_category_taken_name s now c He Hn).
  repeat split.
Qed.

Lemma add_category_taken_name_raises_witness :
  In (name Recipes) (map cat_name (categories store_with_recipes))
  /\ outcome (run (add_category Recipes) store_with_recipes "2024-05-01 10:00:05") =
       Raise OperationalError.
Proof.
  assert (H : In (name Recipes) (map cat_name (categories store_with_recipes)))
    by (left; reflexivity).
  split; [exact H|].
  exact (proj1 (add_category_taken_name_raises store_with_recipes
                  "2024-05-01 10:00:05" Recipes eq_refl H)).
Defined.

(** ** Deleting a category that has blocks (C2) *)

(** C2, as it stands, fails on the scenario of the specification: after
    DELETE /categories/1 the block row is still in the table with
    category_id 1, and GET /blocks returns the empty list. *)
Lemma deleted_category_blocks_not_returned :
  outcome (run (delete_category 1) store_with_block "2024-05-01 10:00:03") =
    Ok (JDict [("message", JStr "Category 1 deleted")])
  /\ blocks (store_after (run (delete_category 1) store_with_block "2024-05-01 10:00:03")) =
       [{| blk_id := 1; blk_category_id := 1; blk_title := "T"; blk_content := "C" |}]
  /\ outcome (run get_blocks
                (store_after (run (delete_category 1) store_with_block
                                "2024-05-01 10:00:03"))
                "2024-05-01 10:00:04") = Ok (JList []).
Proof. repeat split. Qed.

(** C2, amended. When [delete_category] reports the category deleted, the
    blocks table is exactly what it was (no cascade: blocks of the
    category keep their category_id), and a following GET /blocks returns
    a list in which no row has that category_id: the inner join drops the
    blocks whose category is gone. *)
Theorem deleted_category_blocks_unlisted (s : Store) (now now' : string) (i : Z) :
  outcome (run (delete_category i) s now) =
    Ok (JDict [("message", JStr (fstring ["Category "; str i; " deleted"]))]) ->
  blocks (store_after (run (delete_category i) s now)) = blocks s
  /\ exists rows,
       outcome (run get_blocks (store_after (run (delete_category i) s now)) now') =
         Ok (JList (map Handlers.joined_block_dict rows))
       /\ Forall (fun r => blk_category_id (fst r) <> i) rows.
Proof.
  rewrite run_get_blocks.
  crunch; intros H; try discriminate H.
  cbn [append_log blocks disk]. split; [reflexivity|].
  eexists. split; [reflexivity|].
  apply Forall_forall. intros [b n] Hin. cbn [fst].
  apply join_row_category in Hin. destruct Hin as [_ [c [Hc [E _]]]].
  cbn [append_log categories] in Hc.
  apply filter_In in Hc. destruct Hc as [_ Hc].
  unfold has_id in Hc. rewrite <- E. intros E'.
  rewrite E', Z.eqb_refl in Hc. discriminate Hc.
Qed.

Lemma deleted_category_blocks_unlisted_witness :
  blocks (store_after (run (delete_category 1) store_with_block "2024-05-01 10:00:03")) =
    blocks store_with_block
  /\ exists rows,
       outcome (run get_blocks
                  (store_after (run (delete_category 1) store_with_block
                                  "2024-05-01 10:00:03"))
                  "2024-05-01 10:00:04") =
         Ok (JList (map Handlers.joined_block_dict rows))
       /\ Forall (fun r => blk_category_id (fst r) <> 1) rows.
Proof.
  apply (deleted_category_blocks_unlisted store_with_block "2024-05-01 10:00:03"
           "2024-05-01 10:00:04" 1).
  reflexivity.
Defined.

(** ** A failing log write (C3) *)

(** A persisted write that fails with [e] and touches nothing. *)
Definition failing_log_to_db (e : exn) : string -> string -> M unit :=
  fun _ _ => raise e.

(** C3, as it stands, fails: GET /categories on the store with one
    category returns the list when the log row can be written, and raises
    when the write of the log row fails, although the read it is about
    succeeded. *)
Lemma failed_log_write_fails_get_categories :
  outcome (run (route GET_categories) store_with_recipes "2024-05-01 10:00:05") =
    Ok (JList [JDict [("id", JInt 1); ("name", JStr "Recipes")]])
  /\ outcome (run (route_with (failing_log_to_db OperationalError) GET_categories)
                store_with_recipes "2024-05-01 10:00:05") = Raise OperationalError.
Proof. split; reflexivity. Qed.

(** C3, amended. Neither [app_log] nor any handler catches a failure of
    the persisted write: with a [log_to_db] that raises [e], every
    category and block request raises instead of returning a response,
    and it raises [e] wherever the request would otherwise have returned.
    The categories and blocks tables end as they do when the log row is
    written: what the request committed before logging stays committed. *)
Theorem logger_failure_propagates
  (persist : string -> string -> M unit) (e : exn)
  (Hfail : forall level message w, persist level message w = (Raise e, w))
  (r : request) (s : Store) (now : string) :
  r <> GET_logs ->
  (exists e', outcome (run (route_with persist r) s now) = Raise e')
  /\ (forall response, outcome (run (route r) s now) = Ok response ->
                       outcome (run (route_with persist r) s now) = Raise e)
  /\ categories (store_after (run (route_with persist r) s now)) =
       categories (store_after (run (route r) s now))
  /\ blocks (store_after (run (route_with persist r) s now)) =
       blocks (store_after (run (route r) s now)).
Proof.
  intros Hr.
  destruct r; try congruence; unfold_handlers; exec;
    repeat (first [ rewrite Hfail
                  | split_cond
                  | match goal with
                    | |- context [match e with IntegrityError => _ | _ => _ end] =>
                        destruct e
                    end ];
            exec).
  all: cbn [append_log categories blocks disk].
  all: repeat split; eauto; intros; try discriminate; reflexivity.
Qed.

Definition Notes : Category := {| name := "Notes" |}.

Lemma logger_failure_propagates_witness :
  outcome (run (route_with (failing_log_to_db OperationalError) (POST_categories Notes))
             store_with_recipes "2024-05-01 10:00:05") = Raise OperationalError
  /\ categories
       (store_after
          (run (route_with (failing_log_to_db OperationalError) (POST_categories Notes))
             store_with_recipes "2024-05-01 10:00:05")) =
     categories
       (store_after
          (run (route (POST_categories Notes)) store_with_recipes "2024-05-01 10:00:05")).
Proof.
  assert (Hr : POST_categories Notes <> GET_logs) by discriminate.
  pose proof (logger_failure_propagates (failing_log_to_db OperationalError)
                OperationalError (fun _ _ _ => eq_refl)
                (POST_categories Notes) store_with_recipes "2024-05-01 10:00:05" Hr)
    as [_ [H2 [H3 _]]].
  split; [|exact H3].
  apply (H2 (JDict [("id", JInt 2); ("name", JStr "Notes")])). reflexivity.
Defined.

(** ** Log rows per request (C4) *)

(** C4. On the store with the category "Recipes", POST /categories with
    that name is rejected as a duplicate and adds no log row at all: the
    request raises, the logs table still holds its one "info" row and no
    "warning" row; only the process logger saw the warning. *)
Theorem duplicate_create_writes_no_log_row :
  outcome (run (route (POST_categories Recipes)) store_with_recipes
             "2024-05-01 10:00:05") = Raise OperationalError
  /\ logs (store_after (run (route (POST_categories Recipes)) store_with_recipes
                          "2024-05-01 10:00:05")) = logs store_with_recipes
  /\ map log_level (logs store_with_recipes) = ["info"]
  /\ map fst (log_calls (snd (run (route (POST_categories Recipes)) store_with_recipes
                                 "2024-05-01 10:00:05"))) = [WARNING].
Proof. repeat split. Qed.

(** ** Ids that no row has (C5) *)

(** A soft error: the error dict with status 200, the categories and
    blocks tables as they were, and one "warning" row more in [logs]. *)
Definition soft_error_kept (s : Store) (x : result json * World) (message : string) : Prop :=
  outcome x = Ok (Handlers.error message)
  /\ http_status (outcome x) = 200
  /\ categories (store_after x) = categories s
  /\ blocks (store_after x) = blocks s
  /\ exists row, logs (store_after x) = logs s ++ [row] /\ log_level row = "warning".

Lemma soft_error_kept_logged s sev message log_message now :
  soft_error_kept s
    (Ok (Handlers.error message), logged s sev "warning" log_message now) message.
Proof.
  repeat split. eexists. split; reflexivity.
Qed.

(** The [str] a JSON body gives for "\ud800": one surrogate code point. *)
Definition lone_surrogate : string :=
  String (ascii_of_nat 237) (String (ascii_of_nat 160) (String (ascii_of_nat 128) "")).

Definition unencodable_category : Category := {| name := lone_surrogate |}.

(** C5, as it stands, fails in two ways.  For an id outside the signed
    64-bit range: 2^63 is the id of no category, and GET /categories/2^63
    raises OverflowError when the id is bound to the query (status 500).
    For a body UTF-8 cannot encode: 7 is the id of no category, and PUT
    /categories/7 with the name "\ud800" raises UnicodeEncodeError when
    the name is bound, before any row is looked up (status 500). *)
Lemma absent_id_unbindable_raises :
  ~ In (2 ^ 63) (map cat_id (categories store_with_block))
  /\ outcome (run (get_category (2 ^ 63)) store_with_block "2024-05-01 10:00:07") =
       Raise OverflowError
  /\ http_status
       (outcome (run (get_category (2 ^ 63)) store_with_block "2024-05-01 10:00:07")) = 500
  /\ ~ In 7 (map cat_id (categories store_with_block))
  /\ outcome (run (update_category 7 unencodable_category) store_with_block
                "2024-05-01 10:00:07") = Raise UnicodeEncodeError
  /\ http_status
       (outcome (run (update_category 7 unencodable_category) store_with_block
                   "2024-05-01 10:00:07")) = 500.
Proof.
  split; [cbn; intros [H|[]]; discriminate H|].
  split; [reflexivity|]. split; [reflexivity|].
  split; [cbn; intros [H|[]]; discriminate H|].
  split; reflexivity.
Qed.

(** C5, amended. For every id within the signed 64-bit range: if no
    category has it, [get_category], [update_category] (given a name
    UTF-8 can encode) and [delete_category] return {"error": "Category
    <id> not found"}; if no block has it, [update_block] (given a body
    whose category_id is in range and whose title and content UTF-8 can
    encode) and [delete_block] return {"error": "Block <id> not found"}.
    In each case the status is 200, the categories and blocks tables are
    unchanged and [logs] gains one "warning" row.  (The service has no
    route that fetches one block.) *)
Theorem absent_id_not_found (s : Store) (now : string) (i : Z) (c : Category) (b : Block) :
  sqlite_int i = true ->
  (~ In i (map cat_id (categories s)) ->
   soft_error_kept s (run (get_category i) s now)
     (fstring ["Category "; str i; " not found"])
   /\ (utf8_encodable (name c) = true ->
       soft_error_kept s (run (update_category i c) s now)
         (fstring ["Category "; str i; " not found"]))
   /\ soft_error_kept s (run (delete_category i) s now)
        (fstring ["Category "; str i; " not found"]))
  /\ (~ In i (map blk_id (blocks s)) ->
      (sqlite_int (category_id b) = true ->
       utf8_encodable (title b) = true -> utf8_encodable (content b) = true ->
       soft_error_kept s (run (update_block i b) s now)
         (fstring ["Block "; str i; " not found"]))
      /\ soft_error_kept s (run (delete_block i) s now)
           (fstring ["Block "; str i; " not found"])).
Proof.
  intros Hi. split; intros Ha.
  - rewrite (run_get_category_miss s now i Hi Ha),
      (run_delete_category_miss s now i Hi Ha).
    split; [apply soft_error_kept_logged|]. split; [|apply soft_error_kept_logged].
    intros Hn. rewrite (run_update_category_miss s now i c Hn Hi Ha).
    apply soft_error_kept_logged.
  - split.
    + intros Hc Ht Hk. rewrite (run_update_block_miss s now i b Hi Hc Ht Hk Ha).
      apply soft_error_kept_logged.
    + rewrite (run_delete_block_miss s now i Hi Ha). apply soft_error_kept_logged.
Qed.

Lemma absent_id_not_found_witness :
  soft_error_kept store_with_block
    (run (get_category 7) store_with_block "2024-05-01 10:00:07")
    "Category 7 not found"
  /\ soft_error_kept store_with_block
       (run (update_category 7 Recipes) store_with_block "2024-05-01 10:00:07")
       "Category 7 not found"
  /\ soft_error_kept store_with_block
       (run (update_block 7 block_T) store_with_block "2024-05-01 10:00:07")
       "Block 7 not found".
Proof.
  pose proof (absent_id_not_found store_with_block "2024-05-01 10:00:07" 7
                Recipes block_T eq_refl) as [Hc Hb].
  assert (Ha : ~ In 7 (map cat_id (categories store_with_block))).
  { cbn. intros [H|[]]. discriminate H. }
  assert (Ha' : ~ In 7 (map blk_id (blocks store_with_block))).
  { cbn. intros [H|[]]. discriminate H. }
  split; [exact (proj1 (Hc Ha))|].
  split; [exact (proj1 (proj2 (Hc Ha)) eq_refl)|].
  exact (proj1 (Hb Ha') eq_refl eq_refl eq_refl).
Defined.

(** ** A block for a category that does not exist (C6) *)

Definition block_of_category_9 : Block :=
  {| category_id := 9; title := "T"; content := "C" |}.

Definition block_of_category_2_63 : Block :=
  {| category_id := 2 ^ 63; title := "T"; content := "C" |}.

(** C6, as it stands, fails for a category_id outside the signed 64-bit
    range: 2^63 is the id of no category, and POST /blocks with it raises
    OverflowError at the existence check; there is no response and
    nothing is logged. *)
Lemma add_block_out_of_range_category_raises :
  ~ In (category_id block_of_category_2_63) (map cat_id (categories store_with_recipes))
  /\ run (add_block block_of_category_2_63) store_with_recipes "2024-05-01 10:00:07" =
     (Raise OverflowError,
      {| disk := store_with_recipes; writer := None; next_conn := 1%nat;
         log_calls := []; clock := "2024-05-01 10:00:07" |}).
Proof.
  split; [|reflexivity].
  cbn. intros [H|[]]. discriminate H.
Qed.

(** C6, amended. For every category_id within the signed 64-bit range
    that no category has, [add_block] returns the error dict, calls the
    logger once with a warning, writes one "warning" row, and leaves the
    blocks table and its id counter as they were. *)
Theorem add_block_unknown_category (s : Store) (now : string) (b : Block) :
  sqlite_int (category_id b) = true ->
  ~ In (category_id b) (map cat_id (categories s)) ->
  outcome (run (add_block b) s now) = Ok (Handlers.error "Geçersiz kategori id")
  /\ blocks (store_after (run (add_block b) s now)) = blocks s
  /\ seq_blocks (store_after (run (add_block b) s now)) = seq_blocks s
  /\ (exists row,
        logs (store_after (run (add_block b) s now)) = logs s ++ [row]
        /\ log_level row = "warning")
  /\ (exists message, log_calls (snd (run (add_block b) s now)) = [(WARNING, message)]).
Proof.
  intros Hc Ha. rewrite (run_add_block_unknown_category s now b Hc Ha).
  repeat split; eexists; try split; reflexivity.
Qed.

Lemma add_block_unknown_category_witness :
  outcome (run (add_block block_of_category_9) store_with_recipes "2024-05-01 10:00:07") =
    Ok (Handlers.error "Geçersiz kategori id")
  /\ blocks (store_after (run (add_block block_of_category_9) store_with_recipes
                            "2024-05-01 10:00:07")) = [].
Proof.
  assert (Ha : ~ In (category_id block_of_category_9)
                    (map cat_id (categories store_with_recipes))).
  { cbn. intros [H|[]]. discriminate H. }
  pose proof (add_block_unknown_category store_with_recipes "2024-05-01 10:00:07"
                block_of_category_9 eq_refl Ha) as [H1 [H2 _]].
  split; [exact H1 | exact H2].
Defined.

(** ** Create, then read (C7) *)

(** C7. When [add_category] returns {"id": i, "name": n}, [get_category i]
    on the resulting store returns {"id": i, "name": n} ([i] being an id
    SQLite can hold, as every id it hands out is).  When [add_block]
    returns the new block with id [i], its category exists and GET /blocks
    on the resulting store returns a list that contains the block's
    fields joined with that category's name. *)
Theorem create_then_read_round_trip (s : Store) (now now' : string) :
  (forall (c : Category) (i : Z),
      outcome (run (add_category c) s now) =
        Ok (JDict [("id", JInt i); ("name", JStr (name c))]) ->
      sqlite_int i = true ->
      outcome (run (get_category i) (store_after (run (add_category c) s now)) now') =
        Ok (JDict [("id", JInt i); ("name", JStr (name c))]))
  /\ (forall (b : Block) (i : Z),
         outcome (run (add_block b) s now) = Ok (Handlers.block_dict i b) ->
         exists category rows,
           find (has_id (category_id b)) (categories s) = Some category
           /\ outcome (run get_blocks (store_after (run (add_block b) s now)) now') =
                Ok (JList rows)
           /\ In (JDict [("id", JInt i); ("category_id", JInt (category_id b));
                         ("title", JStr (title b)); ("content", JStr (content b));
                         ("category_name", JStr (cat_name category))]) rows).
Proof.
  split.
  - intros c i H Hi.
    assert (Hrow : exists r,
               cat_id r = i /\ cat_name r = name c
               /\ find (has_id i)
                    (categories (store_after (run (add_category c) s now))) = Some r).
    { revert H. crunch; intros H; try discriminate H.
      injection H as <-. cbn [append_log categories].
      exists {| cat_id := next_rowid (map cat_id (categories s)) (seq_categories s);
                cat_name := name c |}.
      split; [reflexivity|]. split; [reflexivity|].
      apply (find_appended_fresh (categories s)
               {| cat_id := next_rowid (map cat_id (categories s)) (seq_categories s);
                  cat_name := name c |}).
      cbn [cat_id]. intros Hin.
      apply (next_rowid_fresh _ (seq_categories s)) in Hin. lia. }
    destruct Hrow as [r [E1 [E2 Hf]]].
    rewrite (run_get_category_hit _ now' i r Hi Hf).
    unfold outcome, Handlers.category_dict. cbn [fst]. rewrite E1, E2. reflexivity.
  - intros b i H. rewrite run_get_blocks.
    revert H. crunch; intros H; try discriminate H.
    injection H as <-.
    eexists. eexists. split; [reflexivity|]. split; [reflexivity|].
    match goal with Hf : find _ _ = Some ?c |- _ =>
      apply find_some in Hf; destruct Hf as [Hin Hid];
      unfold has_id in Hid; apply Z.eqb_eq in Hid
    end.
    apply in_map_iff.
    eexists ({| blk_id := _; blk_category_id := category_id b;
                blk_title := title b; blk_content := content b |}, _).
    split; [reflexivity|].
    apply join_category_row; cbn [append_log blocks categories blk_category_id];
      [apply in_or_app; right; left; reflexivity | eassumption | assumption].
Qed.

Lemma create_then_read_round_trip_witness :
  outcome (run (get_category 1)
             (store_after (run (add_category Recipes) empty_store "2024-05-01 10:00:00"))
             "2024-05-01 10:00:09") =
    Ok (JDict [("id", JInt 1); ("name", JStr "Recipes")])
  /\ exists category rows,
       find (has_id 1) (categories store_with_recipes) = Some category
       /\ outcome (run get_blocks
                     (store_after (run (add_block block_T) store_with_recipes
                                     "2024-05-01 10:00:01"))
                     "2024-05-01 10:00:09") = Ok (JList rows)
       /\ In (JDict [("id", JInt 1); ("category_id", JInt 1); ("title", JStr "T");
                     ("content", JStr "C"); ("category_name", JStr (cat_name category))])
             rows.
Proof.
  split.
  - apply (proj1 (create_then_read_round_trip empty_store "2024-05-01 10:00:00"
                    "2024-05-01 10:00:09") Recipes 1); reflexivity.
  - apply (proj2 (create_then_read_round_trip store_with_recipes "2024-05-01 10:00:01"
                    "2024-05-01 10:00:09") block_T 1); reflexivity.
Defined.

(** ** The logs table only grows (C8) *)

(** After POST /categories {"name": "Notes"} on the store with "Recipes". *)
Definition store_with_notes : Store :=
  Eval vm_compute in
    store_after (run (add_category Notes) store_with_recipes "2024-05-01 10:00:02").

(** C8, as it stands, fails in its second half: renaming category 2 to
    the name category 1 has violates UNIQUE, [update_category] has no
    handler for it, and the request ends with IntegrityError before any
    log row is written. *)
Lemma update_to_taken_name_writes_no_log_row :
  map cat_id (categories store_with_notes) = [1; 2]
  /\ outcome (run (route (PUT_category 2 Recipes)) store_with_notes
                "2024-05-01 10:00:05") = Raise IntegrityError
  /\ logs (store_after (run (route (PUT_category 2 Recipes)) store_with_notes
                          "2024-05-01 10:00:05")) = logs store_with_notes.
Proof. repeat split. Qed.

(** C8, amended. Every request leaves the rows the logs table had in
    place and in order, followed by at most one new row: no handler
    updates or deletes a log row.  Every category or block request that
    returns a response has added exactly one row; GET /logs adds none. *)
Theorem logs_append_only (r : request) (s : Store) (now : string) :
  exists added,
    logs (store_after (run (route r) s now)) = logs s ++ added
    /\ (List.length added <= 1)%nat
    /\ (forall response,
          outcome (run (route r) s now) = Ok response -> r <> GET_logs ->
          List.length added = 1%nat)
    /\ (r = GET_logs -> added = []).
Proof.
  destruct r; crunch.
  all: cbn [append_log logs disk].
  all: try (eexists [_]; split; [reflexivity|]; split; [cbn; lia|];
            split; intros; [reflexivity|discriminate]).
  all: exists []; rewrite app_nil_r; split; [reflexivity|];
    split; [cbn; lia|]; split; intros; try discriminate; congruence.
Qed.

(** ** HTTP status (C9) *)

(** C9. On the store with the category "Recipes", POST /categories with
    that name, a conflict, is answered with status 500, not with the
    status 200 that successful requests and the other soft errors get. *)
Theorem duplicate_create_status_500 :
  http_status (outcome (run (route (POST_categories Recipes)) store_with_recipes
                          "2024-05-01 10:00:05")) = 500
  /\ http_status (outcome (run (route (POST_categories Notes)) store_with_recipes
                             "2024-05-01 10:00:05")) = 200
  /\ http_status (outcome (run (route (GET_category 7)) store_with_recipes
                             "2024-05-01 10:00:05")) = 200.
Proof. repeat split. Qed.

(** ** Levels that are logged (C10) *)

Definition level_ok (row : LogRow) : Prop :=
  log_level row = "info" \/ log_level row = "warning".

Definition call_ok (c : Severity * string) : Prop :=
  fst c = INFO \/ fst c = WARNING.

(** C10. Whatever the request and the store, the rows the request adds to
    the logs table have level "info" or "warning", and every call it
    makes on the process logger is [logger.info] or [logger.warning]: the
    "error" and "debug" branches of [app_log] are never taken. *)
Theorem persisted_levels_info_or_warning (r : request) (s : Store) (now : string) :
  exists added,
    logs (store_after (run (route r) s now)) = logs s ++ added
    /\ Forall level_ok added
    /\ Forall call_ok (log_calls (snd (run (route r) s now))).
Proof.
  destruct r; crunch.
  all: cbn [append_log logs disk].
  all: try (eexists; split; [reflexivity|]; split; repeat (first [apply Forall_nil | apply Forall_cons]);
            unfold level_ok, call_ok; cbn; auto; fail).
  all: exists []; rewrite app_nil_r; split; [reflexivity|]; split;
    repeat (first [apply Forall_nil | apply Forall_cons]); unfold level_ok, call_ok; cbn; auto.
Qed.


(** * Further properties of the handlers *)

From Stdlib Require Import Permutation Sorted.

(** ** Every request ends its transactions *)

(** Whatever a request does and however it ends, no connection is left
    holding the write transaction: each [with] block commits or rolls
    back on the way out. *)
Theorem no_transaction_left_open (r : request) (s : Store) (now : string) :
  writer (snd (run (route r) s now)) = None.
Proof. destruct r; crunch; reflexivity. Qed.

(** A request that ends with an exception leaves the database file as it
    found it: no table row and no log row is written. *)
Theorem failed_request_changes_nothing (r : request) (s : Store) (now : string) (e : exn) :
  outcome (run (route r) s now) = Raise e ->
  store_after (run (route r) s now) = s.
Proof.
  destruct r; crunch; intros H; try discriminate H; try reflexivity.
  all: rewrite ?store_eta; reflexivity.
Qed.

Lemma failed_request_changes_nothing_witness :
  store_after (run (route (PUT_category 2 Recipes)) store_with_notes
                 "2024-05-01 10:00:05") = store_with_notes.
Proof.
  apply (failed_request_changes_nothing (PUT_category 2 Recipes) store_with_notes
           "2024-05-01 10:00:05" IntegrityError).
  reflexivity.
Defined.

(** ** Which tables a request can change *)

Definition touches_categories (r : request) : bool :=
  match r with
  | POST_categories _ | PUT_category _ _ | DELETE_category _ => true
  | _ => false
  end.

Definition touches_blocks (r : request) : bool :=
  match r with
  | POST_blocks _ | PUT_block _ _ | DELETE_block _ => true
  | _ => false
  end.

(** Only POST, PUT and DELETE on /categories change the categories table
    or its id counter, and only POST, PUT and DELETE on /blocks change the
    blocks table or its id counter: the GET handlers and the handlers of
    the other entity leave them as they were. *)
Theorem tables_untouched (r : request) (s : Store) (now : string) :
  (touches_categories r = false ->
     categories (store_after (run (route r) s now)) = categories s
     /\ seq_categories (store_after (run (route r) s now)) = seq_categories s)
  /\ (touches_blocks r = false ->
     blocks (store_after (run (route r) s now)) = blocks s
     /\ seq_blocks (store_after (run (route r) s now)) = seq_blocks s).
Proof.
  destruct r; crunch;
    cbn [append_log categories blocks seq_categories seq_blocks disk
         touches_categories touches_blocks];
    split; intros H; try discriminate H; split; reflexivity.
Qed.

Lemma tables_untouched_witness :
  categories (store_after (run (route (DELETE_block 1)) store_with_block
                             "2024-05-01 10:00:03")) = categories store_with_block
  /\ blocks (store_after (run (route (DELETE_category 1)) store_with_block
                            "2024-05-01 10:00:03")) = blocks store_with_block.
Proof.
  split.
  - exact (proj1 (proj1 (tables_untouched (DELETE_block 1) store_with_block
                           "2024-05-01 10:00:03") eq_refl)).
  - exact (proj1 (proj2 (tables_untouched (DELETE_category 1) store_with_block
                           "2024-05-01 10:00:03") eq_refl)).
Defined.
(** ** Requests one after the other

    The store after a sequence of requests, each served at its own time
    on what the one before left. *)
Fixpoint serve (requests : list (request * string)) (s : Store) : Store :=
  match requests with
  | [] => s
  | (r, now) :: rest => serve rest (store_after (run (route r) s now))
  end.

Lemma next_rowid_above_seq (ids : list Z) (seq : Z) : seq < next_rowid ids seq.
Proof. unfold next_rowid. lia. Qed.

Lemma request_counters_grow (r : request) (s : Store) (now : string) :
  seq_categories s <= seq_categories (store_after (run (route r) s now))
  /\ seq_blocks s <= seq_blocks (store_after (run (route r) s now)).
Proof.
  destruct r; crunch;
    cbn [append_log seq_categories seq_blocks disk]; split; try lia.
  all: match goal with |- ?a <= next_rowid ?ids ?a =>
         pose proof (next_rowid_above_seq ids a); lia end.
Qed.

Lemma serve_counters_grow (requests : list (request * string)) (s : Store) :
  seq_categories s <= seq_categories (serve requests s)
  /\ seq_blocks s <= seq_blocks (serve requests s).
Proof.
  revert s. induction requests as [|[r now] rest IH]; intros s; cbn [serve]; [lia|].
  pose proof (request_counters_grow r s now).
  pose proof (IH (store_after (run (route r) s now))). lia.
Qed.

(** ** Paths on which a handler succeeds *)

Lemma existsb_has_id_present (i : Z) (l : list CategoryRow) :
  In i (map cat_id l) -> existsb (has_id i) l = true.
Proof.
  intros H. apply in_map_iff in H. destruct H as [r [E Hr]].
  apply existsb_exists. exists r. split; [assumption|].
  unfold has_id. apply Z.eqb_eq. assumption.
Qed.

Lemma rowcount_present {A} (p : A -> bool) (l : list A) :
  existsb p l = true -> Z.eqb (Z.of_nat (List.length (filter p l))) 0 = false.
Proof.
  intros H. apply existsb_exists in H. destruct H as [x [Hx Hp]].
  assert (Hin : In x (filter p l)) by (apply filter_In; tauto).
  destruct (filter p l); [destruct Hin|]. reflexivity.
Qed.

Lemma existsb_blk_has_id_present (i : Z) (l : list BlockRow) :
  In i (map blk_id l) -> existsb (blk_has_id i) l = true.
Proof.
  intros H. apply in_map_iff in H. destruct H as [r [E Hr]].
  apply existsb_exists. exists r. split; [assumption|].
  unfold blk_has_id. apply Z.eqb_eq. assumption.
Qed.

Lemma no_other_row_named (i : Z) (n : string) (l : list CategoryRow) :
  (forall r, In r l -> cat_id r <> i -> cat_name r <> n) ->
  existsb (fun r => negb (has_id i r) && has_name n r) l = false.
Proof.
  intros H. destruct (existsb _ l) eqn:E; [|reflexivity].
  apply existsb_exists in E. destruct E as [r [Hr Hp]].
  apply andb_true_iff in Hp. destruct Hp as [H1 H2].
  apply negb_true_iff in H1. unfold has_id in H1. apply Z.eqb_neq in H1.
  unfold has_name in H2. apply String.eqb_eq in H2.
  exfalso. exact (H r Hr H1 H2).
Qed.

Lemma other_row_named (i : Z) (n : string) (l : list CategoryRow) (r : CategoryRow) :
  In r l -> cat_id r <> i -> cat_name r = n ->
  existsb (fun r => negb (has_id i r) && has_name n r) l = true.
Proof.
  intros Hr Hi Hn. apply existsb_exists. exists r. split; [assumption|].
  apply andb_true_iff. split.
  - apply negb_true_iff. unfold has_id. apply Z.eqb_neq. assumption.
  - unfold has_name. apply String.eqb_eq. assumption.
Qed.

Lemma find_updated_category (i : Z) (n : string) (l : list CategoryRow) :
  In i (map cat_id l) ->
  find (has_id i) (map (update_category_row i n) l) = Some {| cat_id := i; cat_name := n |}.
Proof.
  induction l as [|r l IH]; cbn [map find In]; [tauto|]. intros H.
  unfold update_category_row at 1 2. destruct (has_id i r) eqn:E.
  - unfold has_id in *. cbn [cat_id]. rewrite E.
    apply Z.eqb_eq in E. rewrite E. reflexivity.
  - rewrite E. apply IH. destruct H as [H|H]; [|assumption].
    unfold has_id in E. apply Z.eqb_neq in E. contradiction.
Qed.

Section MoreRuns.
Variables (s : Store) (now : string).

Lemma run_update_category_ok i c :
  utf8_encodable (name c) = true ->
  sqlite_int i = true -> In i (map cat_id (categories s)) ->
  (forall r, In r (categories s) -> cat_id r <> i -> cat_name r <> name c) ->
  run (update_category i c) s now =
  (Ok (JDict [("id", JInt i); ("name", JStr (name c))]),
   logged {| categories := map (update_category_row i (name c)) (categories s);
             blocks := blocks s; logs := logs s;
             seq_categories := seq_categories s; seq_blocks := seq_blocks s;
             seq_logs := seq_logs s |}
     INFO "info"
     (fstring ["Kategori güncellendi: id="; str i; ", yeni ad="; name c]) now).
Proof.
  intros He Hi Hin Hn. unfold_handlers. rewrite He, Hi. exec.
  rewrite (existsb_has_id_present _ _ Hin), (no_other_row_named _ _ _ Hn). exec.
  rewrite (rowcount_present _ _ (existsb_has_id_present _ _ Hin)). exec.
  reflexivity.
Qed.

Lemma run_update_category_conflict i c r :
  utf8_encodable (name c) = true ->
  sqlite_int i = true -> In i (map cat_id (categories s)) ->
  In r (categories s) -> cat_id r <> i -> cat_name r = name c ->
  run (update_category i c) s now =
  (Raise IntegrityError,
   {| disk := s; writer := None; next_conn := 1%nat; log_calls := []; clock := now |}).
Proof.
  intros He Hi Hin Hr Hne Hn. unfold_handlers. rewrite He, Hi. exec.
  rewrite (existsb_has_id_present _ _ Hin), (other_row_named _ _ _ _ Hr Hne Hn). exec.
  reflexivity.
Qed.

Lemma run_delete_category_ok i :
  sqlite_int i = true -> In i (map cat_id (categories s)) ->
  run (delete_category i) s now =
  (Ok (JDict [("message", JStr (fstring ["Category "; str i; " deleted"]))]),
   logged {| categories := filter (fun r => negb (has_id i r)) (categories s);
             blocks := blocks s; logs := logs s;
             seq_categories := seq_categories s; seq_blocks := seq_blocks s;
             seq_logs := seq_logs s |}
     INFO "info" (fstring ["Kategori silindi: id="; str i]) now).
Proof.
  intros Hi Hin. unfold_handlers. rewrite Hi. exec.
  rewrite (rowcount_present _ _ (existsb_has_id_present _ _ Hin)). exec.
  reflexivity.
Qed.

Lemma run_add_category_ok c :
  utf8_encodable (name c) = true ->
  ~ In (name c) (map cat_name (categories s)) ->
  run (add_category c) s now =
  (Ok (JDict [("id", JInt (next_rowid (map cat_id (categories s)) (seq_categories s)));
              ("name", JStr (name c))]),
   logged {| categories :=
               categories s ++
               [{| cat_id := next_rowid (map cat_id (categories s)) (seq_categories s);
                   cat_name := name c |}];
             blocks := blocks s; logs := logs s;
             seq_categories := next_rowid (map cat_id (categories s)) (seq_categories s);
             seq_blocks := seq_blocks s; seq_logs := seq_logs s |}
     INFO "info"
     (fstring ["Kategori eklendi: "; name c; " (id=";
               str (next_rowid (map cat_id (categories s)) (seq_categories s)); ")"])
     now).
Proof.
  intros He Hn. unfold_handlers. rewrite He. exec.
  destruct (existsb (has_name (name c)) (categories s)) eqn:E.
  - exfalso. apply Hn. apply existsb_exists in E. destruct E as [r [Hr Hp]].
    unfold has_name in Hp. apply String.eqb_eq in Hp. rewrite <- Hp.
    apply in_map. assumption.
  - exec. reflexivity.
Qed.

Lemma run_add_block_ok b :
  sqlite_int (category_id b) = true ->
  utf8_encodable (title b) = true -> utf8_encodable (content b) = true ->
  In (category_id b) (map cat_id (categories s)) ->
  run (add_block b) s now =
  (Ok (Handlers.block_dict (next_rowid (map blk_id (blocks s)) (seq_blocks s)) b),
   logged {| categories := categories s;
             blocks :=
               blocks s ++
               [{| blk_id := next_rowid (map blk_id (blocks s)) (seq_blocks s);
                   blk_category_id := category_id b;
                   blk_title := title b; blk_content := content b |}];
             logs := logs s;
             seq_categories := seq_categories s;
             seq_blocks := next_rowid (map blk_id (blocks s)) (seq_blocks s);
             seq_logs := seq_logs s |}
     INFO "info"
     (fstring ["Blok eklendi: id="; str (next_rowid (map blk_id (blocks s)) (seq_blocks s));
               ", kategori="; str (category_id b); ", başlık="; title b;
               ", içerik="; content b]) now).
Proof.
  intros Hc Ht Hk Hin. unfold_handlers. rewrite Hc, Ht, Hk. exec.
  destruct (find (has_id (category_id b)) (categories s)) eqn:E.
  - exec. reflexivity.
  - exfalso. apply existsb_has_id_present in Hin. apply existsb_exists in Hin.
    destruct Hin as [r [Hr Hp]]. rewrite (find_none _ _ E r Hr) in Hp.
    discriminate Hp.
Qed.


Lemma run_delete_block_ok i :
  sqlite_int i = true -> In i (map blk_id (blocks s)) ->
  run (delete_block i) s now =
  (Ok (JDict [("message", JStr (fstring ["Block "; str i; " deleted"]))]),
   logged {| categories := categories s;
             blocks := filter (fun r => negb (blk_has_id i r)) (blocks s);
             logs := logs s;
             seq_categories := seq_categories s; seq_blocks := seq_blocks s;
             seq_logs := seq_logs s |}
     INFO "info" (fstring ["Blok silindi: id="; str i]) now).
Proof.
  intros Hi Hin. unfold_handlers. rewrite Hi. exec.
  rewrite (rowcount_present _ _ (existsb_blk_has_id_present _ _ Hin)). exec.
  reflexivity.
Qed.

Lemma run_get_logs :
  run get_logs s now =
  (Ok (JList (map Handlers.log_dict (order_by_created_at_desc (logs s)))),
   {| disk := s; writer := None; next_conn := 1%nat; log_calls := []; clock := now |}).
Proof. unfold_handlers. exec. reflexivity. Qed.

End MoreRuns.
Lemma deleted_id_absent (i : Z) (l : list CategoryRow) :
  ~ In i (map cat_id (filter (fun r => negb (has_id i r)) l)).
Proof.
  intros H. apply in_map_iff in H. destruct H as [r [E Hr]].
  apply filter_In in Hr. destruct Hr as [_ Hr].
  unfold has_id in Hr. rewrite E, Z.eqb_refl in Hr. discriminate Hr.
Qed.

Lemma deleted_blk_id_absent (i : Z) (l : list BlockRow) :
  ~ In i (map blk_id (filter (fun r => negb (blk_has_id i r)) l)).
Proof.
  intros H. apply in_map_iff in H. destruct H as [r [E Hr]].
  apply filter_In in Hr. destruct Hr as [_ Hr].
  unfold blk_has_id in Hr. rewrite E, Z.eqb_refl in Hr. discriminate Hr.
Qed.

(** ** Creating *)

(** POST /categories with a name UTF-8 can encode and no category has
    always succeeds: it
    returns the new id with the name, the id is larger than every id in
    the table and than the table's counter, the row is appended, one
    "info" row is logged and the blocks table is untouched. *)
Theorem add_category_fresh_name_succeeds (s : Store) (now : string) (c : Category) :
  utf8_encodable (name c) = true ->
  ~ In (name c) (map cat_name (categories s)) ->
  exists j,
    outcome (run (add_category c) s now) =
      Ok (JDict [("id", JInt j); ("name", JStr (name c))])
    /\ (forall row, In row (categories s) -> cat_id row < j)
    /\ seq_categories s < j
    /\ categories (store_after (run (add_category c) s now)) =
         categories s ++ [{| cat_id := j; cat_name := name c |}]
    /\ blocks (store_after (run (add_category c) s now)) = blocks s
    /\ map log_level (logs (store_after (run (add_category c) s now))) =
         map log_level (logs s) ++ ["info"].
Proof.
  intros He Hn. rewrite (run_add_category_ok s now c He Hn).
  exists (next_rowid (map cat_id (categories s)) (seq_categories s)).
  split; [reflexivity|]. split.
  { intros row Hr. apply next_rowid_fresh. apply in_map. assumption. }
  split; [apply next_rowid_above_seq|].
  unfold store_after, logged. cbn [snd disk append_log categories blocks logs].
  rewrite map_app. repeat split.
Qed.

Lemma add_category_fresh_name_succeeds_witness :
  exists j,
    outcome (run (add_category Notes) store_with_recipes "2024-05-01 10:00:02") =
      Ok (JDict [("id", JInt j); ("name", JStr "Notes")])
    /\ seq_categories store_with_recipes < j.
Proof.
  assert (Hn : ~ In (name Notes) (map cat_name (categories store_with_recipes))).
  { cbn. intros [H|[]]. discriminate H. }
  destruct (add_category_fresh_name_succeeds store_with_recipes
              "2024-05-01 10:00:02" Notes eq_refl Hn) as [j [H1 [_ [H3 _]]]].
  exists j. split; [exact H1 | exact H3].
Defined.

(** POST /blocks with the id of an existing category (within the 64-bit
    range) and a title and content UTF-8 can encode always succeeds: it returns the block with its new id, larger
    than every block id in the table, appends the row and leaves the
    categories table untouched. *)
Theorem add_block_existing_category_succeeds (s : Store) (now : string) (b : Block) :
  sqlite_int (category_id b) = true ->
  utf8_encodable (title b) = true -> utf8_encodable (content b) = true ->
  In (category_id b) (map cat_id (categories s)) ->
  exists j,
    outcome (run (add_block b) s now) = Ok (Handlers.block_dict j b)
    /\ (forall row, In row (blocks s) -> blk_id row < j)
    /\ blocks (store_after (run (add_block b) s now)) =
         blocks s ++ [{| blk_id := j; blk_category_id := category_id b;
                         blk_title := title b; blk_content := content b |}]
    /\ categories (store_after (run (add_block b) s now)) = categories s.
Proof.
  intros Hc Ht Hk Hin. rewrite (run_add_block_ok s now b Hc Ht Hk Hin).
  exists (next_rowid (map blk_id (blocks s)) (seq_blocks s)).
  split; [reflexivity|]. split.
  { intros row Hr. apply next_rowid_fresh. apply in_map. assumption. }
  split; reflexivity.
Qed.

Lemma add_block_existing_category_succeeds_witness :
  exists j,
    outcome (run (add_block block_T) store_with_recipes "2024-05-01 10:00:01") =
      Ok (Handlers.block_dict j block_T).
Proof.
  assert (Hin : In (category_id block_T) (map cat_id (categories store_with_recipes)))
    by (left; reflexivity).
  destruct (add_block_existing_category_succeeds store_with_recipes
              "2024-05-01 10:00:01" block_T eq_refl eq_refl eq_refl Hin) as [j [H1 _]].
  exists j. exact H1.
Defined.

(** ** Renaming a category *)

(** PUT /categories/{id} for an existing id (within the 64-bit range) and
    a name UTF-8 can encode and no other category has returns {"id", "name"}, renames the rows
    of that id and no other, leaves the blocks table untouched, and a
    following GET /categories/{id} returns the new name. *)
Theorem update_category_then_get (s : Store) (now now' : string) (i : Z) (c : Category) :
  utf8_encodable (name c) = true ->
  sqlite_int i = true ->
  In i (map cat_id (categories s)) ->
  (forall r, In r (categories s) -> cat_id r <> i -> cat_name r <> name c) ->
  outcome (run (update_category i c) s now) =
    Ok (JDict [("id", JInt i); ("name", JStr (name c))])
  /\ categories (store_after (run (update_category i c) s now)) =
       map (update_category_row i (name c)) (categories s)
  /\ blocks (store_after (run (update_category i c) s now)) = blocks s
  /\ outcome (run (get_category i) (store_after (run (update_category i c) s now)) now') =
       Ok (JDict [("id", JInt i); ("name", JStr (name c))]).
Proof.
  intros He Hi Hin Hn. rewrite (run_update_category_ok s now i c He Hi Hin Hn).
  split; [reflexivity|]. split; [reflexivity|]. split; [reflexivity|].
  unfold store_after, logged. cbn [snd disk].
  rewrite (run_get_category_hit _ now' i {| cat_id := i; cat_name := name c |} Hi).
  - reflexivity.
  - cbn [append_log categories]. apply find_updated_category. assumption.
Qed.

Lemma update_category_then_get_witness :
  outcome (run (get_category 2)
             (store_after (run (update_category 2 {| name := "Ideas" |}) store_with_notes
                             "2024-05-01 10:00:03"))
             "2024-05-01 10:00:04") =
    Ok (JDict [("id", JInt 2); ("name", JStr "Ideas")]).
Proof.
  assert (Hin : In 2 (map cat_id (categories store_with_notes)))
    by (right; left; reflexivity).
  assert (Hn : forall r, In r (categories store_with_notes) -> cat_id r <> 2 ->
                         cat_name r <> name {| name := "Ideas" |}).
  { intros r [<-|[<-|[]]] Hne E; [discriminate E | apply Hne; reflexivity]. }
  exact (proj2 (proj2 (proj2
    (update_category_then_get store_with_notes "2024-05-01 10:00:03"
       "2024-05-01 10:00:04" 2 {| name := "Ideas" |} eq_refl eq_refl Hin Hn)))).
Defined.

(** PUT /categories/{id} with the name another category has (a name
    UTF-8 can encode, as every name the service stored is) is not turned
    into an error response: the UPDATE violates UNIQUE, nothing handles
    the IntegrityError, the transaction is rolled back, the store is left
    as it was and the logger is never called. *)
Theorem update_category_taken_name_raises
  (s : Store) (now : string) (i : Z) (c : Category) (r : CategoryRow) :
  utf8_encodable (name c) = true ->
  sqlite_int i = true ->
  In i (map cat_id (categories s)) ->
  In r (categories s) -> cat_id r <> i -> cat_name r = name c ->
  outcome (run (update_category i c) s now) = Raise IntegrityError
  /\ store_after (run (update_category i c) s now) = s
  /\ log_calls (snd (run (update_category i c) s now)) = []
  /\ writer (snd (run (update_category i c) s now)) = None.
Proof.
  intros He Hi Hin Hr Hne Hn.
  rewrite (run_update_category_conflict s now i c r He Hi Hin Hr Hne Hn).
  repeat split.
Qed.

Lemma update_category_taken_name_raises_witness :
  outcome (run (update_category 2 Recipes) store_with_notes "2024-05-01 10:00:05") =
    Raise IntegrityError.
Proof.
  assert (Hin : In 2 (map cat_id (categories store_with_notes)))
    by (right; left; reflexivity).
  assert (Hr : In {| cat_id := 1; cat_name := "Recipes" |} (categories store_with_notes))
    by (left; reflexivity).
  assert (Hne : cat_id {| cat_id := 1; cat_name := "Recipes" |} <> 2)
    by (intros E; discriminate E).
  exact (proj1 (update_category_taken_name_raises store_with_notes
                  "2024-05-01 10:00:05" 2 Recipes
                  {| cat_id := 1; cat_name := "Recipes" |} eq_refl eq_refl Hin Hr Hne
                  eq_refl)).
Defined.

(** ** Deleting *)

(** DELETE /categories/{id} for an existing id removes the rows of that
    id and no other row, and leaves the blocks table untouched; after it,
    GET and a second DELETE of the same id both answer "not found". *)
Theorem delete_category_then_gone (s : Store) (now now' : string) (i : Z) :
  sqlite_int i = true ->
  In i (map cat_id (categories s)) ->
  outcome (run (delete_category i) s now) =
    Ok (JDict [("message", JStr (fstring ["Category "; str i; " deleted"]))])
  /\ categories (store_after (run (delete_category i) s now)) =
       filter (fun r => negb (has_id i r)) (categories s)
  /\ blocks (store_after (run (delete_category i) s now)) = blocks s
  /\ outcome (run (get_category i) (store_after (run (delete_category i) s now)) now') =
       Ok (Handlers.error (fstring ["Category "; str i; " not found"]))
  /\ outcome (run (delete_category i) (store_after (run (delete_category i) s now)) now') =
       Ok (Handlers.error (fstring ["Category "; str i; " not found"])).
Proof.
  intros Hi Hin. rewrite (run_delete_category_ok s now i Hi Hin).
  split; [reflexivity|]. split; [reflexivity|]. split; [reflexivity|].
  unfold store_after, logged. cbn [snd disk].
  rewrite run_get_category_miss, run_delete_category_miss;
    try assumption; try (cbn [append_log categories]; apply deleted_id_absent).
  split; reflexivity.
Qed.

Lemma delete_category_then_gone_witness :
  outcome (run (get_category 1)
             (store_after (run (delete_category 1) store_with_block "2024-05-01 10:00:03"))
             "2024-05-01 10:00:04") =
    Ok (Handlers.error "Category 1 not found").
Proof.
  assert (Hin : In 1 (map cat_id (categories store_with_block))) by (left; reflexivity).
  exact (proj1 (proj2 (proj2 (proj2
    (delete_category_then_gone store_with_block "2024-05-01 10:00:03"
       "2024-05-01 10:00:04" 1 eq_refl Hin))))).
Defined.

Lemma filter_map_const {A B} (q : bool) (f : A -> B) (l : list A) :
  filter (fun _ => q) (map f l) = if q then map f l else [].
Proof.
  induction l as [|x l IH]; cbn; [destruct q; reflexivity|].
  rewrite IH. destruct q; reflexivity.
Qed.

Lemma join_filtered_blocks (p : BlockRow -> bool) (s s' : Store) :
  categories s' = categories s -> blocks s' = filter p (blocks s) ->
  join_blocks_categories s' = filter (fun r => p (fst r)) (join_blocks_categories s).
Proof.
  unfold join_blocks_categories. intros -> ->.
  induction (blocks s) as [|b l IH]; cbn [filter flat_map]; [reflexivity|].
  rewrite filter_app, <- IH.
  assert (E : filter (fun r : BlockRow * string => p (fst r))
                (map (fun c => (b, cat_name c))
                   (filter (has_id (blk_category_id b)) (categories s))) =
              if p b then map (fun c => (b, cat_name c))
                            (filter (has_id (blk_category_id b)) (categories s))
              else []).
  { rewrite <- filter_map_const.
    induction (filter (has_id (blk_category_id b)) (categories s)) as [|c cs IHc];
      cbn; [reflexivity|]. rewrite IHc. reflexivity. }
  rewrite E. destruct (p b); reflexivity.
Qed.




(** DELETE /blocks/{id} for an existing block removes the rows of that id
    and no other row, and leaves the categories table untouched; GET
    /blocks then returns what it returned before without the rows of that
    block, and a second DELETE answers "not found". *)
Theorem delete_block_then_unlisted (s : Store) (now now' : string) (i : Z) :
  sqlite_int i = true ->
  In i (map blk_id (blocks s)) ->
  outcome (run (delete_block i) s now) =
    Ok (JDict [("message", JStr (fstring ["Block "; str i; " deleted"]))])
  /\ blocks (store_after (run (delete_block i) s now)) =
       filter (fun r => negb (blk_has_id i r)) (blocks s)
  /\ categories (store_after (run (delete_block i) s now)) = categories s
  /\ outcome (run get_blocks (store_after (run (delete_block i) s now)) now') =
       Ok (JList (map Handlers.joined_block_dict
                    (filter (fun r => negb (blk_has_id i (fst r)))
                       (join_blocks_categories s))))
  /\ outcome (run (delete_block i) (store_after (run (delete_block i) s now)) now') =
       Ok (Handlers.error (fstring ["Block "; str i; " not found"])).
Proof.
  intros Hi Hin. rewrite (run_delete_block_ok s now i Hi Hin).
  split; [reflexivity|]. split; [reflexivity|]. split; [reflexivity|].
  unfold store_after, logged. cbn [snd disk].
  rewrite run_get_blocks, run_delete_block_miss;
    try assumption; try (cbn [append_log blocks]; apply deleted_blk_id_absent).
  split; [|reflexivity].
  unfold outcome. cbn [fst]. do 3 f_equal.
  apply (join_filtered_blocks (fun r => negb (blk_has_id i r))); reflexivity.
Qed.

Lemma delete_block_then_unlisted_witness :
  outcome (run get_blocks
             (store_after (run (delete_block 1) store_with_block "2024-05-01 10:00:03"))
             "2024-05-01 10:00:04") = Ok (JList []).
Proof.
  assert (Hin : In 1 (map blk_id (blocks store_with_block))) by (left; reflexivity).
  exact (proj1 (proj2 (proj2 (proj2
    (delete_block_then_unlisted store_with_block "2024-05-01 10:00:03"
       "2024-05-01 10:00:04" 1 eq_refl Hin))))).
Defined.

(** ** Reading the log *)

(** [a] may come before [b] in the answer of GET /logs: [a] is not older
    than [b]. *)
Definition not_older (a b : LogRow) : Prop :=
  String.ltb (log_created_at a) (log_created_at b) = false.

Lemma ltb_asym (a b : string) : String.ltb a b = true -> String.ltb b a = false.
Proof.
  unfold String.ltb. rewrite (String.compare_antisym b a).
  destruct (String.compare a b); cbn; congruence.
Qed.

Lemma insert_desc_perm (r : LogRow) (l : list LogRow) :
  Permutation (r :: l) (insert_desc r l).
Proof.
  induction l as [|x l IH]; cbn; [constructor; constructor|].
  destruct (String.ltb (log_created_at x) (log_created_at r)); [apply Permutation_refl|].
  eapply perm_trans; [apply perm_swap|]. constructor. exact IH.
Qed.

Lemma insert_desc_sorted (r : LogRow) (l : list LogRow) :
  Sorted not_older l -> Sorted not_older (insert_desc r l).
Proof.
  induction l as [|x l IH]; cbn; intros Hs.
  - constructor; constructor.
  - destruct (String.ltb (log_created_at x) (log_created_at r)) eqn:E.
    + constructor; [assumption|]. constructor. unfold not_older.
      apply ltb_asym. assumption.
    + inversion_clear Hs as [|? ? Hs' Hhd]. constructor; [apply IH; assumption|].
      destruct l as [|y l]; cbn.
      * constructor. exact E.
      * destruct (String.ltb (log_created_at y) (log_created_at r));
          constructor; [exact E|]. inversion_clear Hhd. assumption.
Qed.

Lemma fold_insert_perm (l acc : list LogRow) :
  Permutation (l ++ acc) (fold_left (fun sorted r => insert_desc r sorted) l acc).
Proof.
  revert acc. induction l as [|x l IH]; intros acc; cbn; [apply Permutation_refl|].
  eapply perm_trans; [|apply IH].
  eapply perm_trans; [apply Permutation_middle|].
  apply Permutation_app_head. apply insert_desc_perm.
Qed.

Lemma fold_insert_sorted (l acc : list LogRow) :
  Sorted not_older acc ->
  Sorted not_older (fold_left (fun sorted r => insert_desc r sorted) l acc).
Proof.
  revert acc. induction l as [|x l IH]; intros acc H; cbn; [assumption|].
  apply IH. apply insert_desc_sorted. assumption.
Qed.

(** GET /logs reads and nothing else: the database file is left as it
    was and the logger is not called.  Its answer holds every row of the
    logs table exactly once, and no row in it is followed by a newer one
    (ORDER BY created_at DESC). *)
Theorem get_logs_newest_first (s : Store) (now : string) :
  exists rows,
    run get_logs s now =
      (Ok (JList (map Handlers.log_dict rows)),
       {| disk := s; writer := None; next_conn := 1%nat; log_calls := [];
          clock := now |})
    /\ Permutation (logs s) rows
    /\ Sorted not_older rows.
Proof.
  rewrite run_get_logs. eexists. split; [reflexivity|].
  unfold order_by_created_at_desc. split.
  - rewrite <- (app_nil_r (logs s)) at 1. apply fold_insert_perm.
  - apply fold_insert_sorted. constructor.
Qed.

Lemma insert_desc_newest (r : LogRow) (l : list LogRow) :
  Forall (fun x => String.ltb (log_created_at x) (log_created_at r) = true) l ->
  insert_desc r l = r :: l.
Proof.
  intros H. destruct l as [|x l]; cbn; [reflexivity|].
  inversion_clear H as [|? ? Hx _]. rewrite Hx. reflexivity.
Qed.

(** The row a request wrote, with the level and message it was logged
    with and the time of the request. *)
Lemma response_log_row_at (r : request) (s : Store) (now : string) (response : json) :
  outcome (run (route r) s now) = Ok response -> r <> GET_logs ->
  exists level message,
    logs (store_after (run (route r) s now)) =
      logs s ++ [new_log_row s level message now].
Proof.
  destruct r; crunch; intros H Hr; try discriminate H; try congruence.
  all: cbn [append_log logs disk new_log_row seq_logs]; eexists; eexists; reflexivity.
Qed.

(** When every row of the logs table is older than the time of a category
    or block request that returns a response, a following GET /logs
    lists the row of that request first. *)
Theorem latest_request_listed_first
  (r : request) (s : Store) (now now' : string) (response : json) :
  outcome (run (route r) s now) = Ok response -> r <> GET_logs ->
  Forall (fun x => String.ltb (log_created_at x) now = true) (logs s) ->
  exists row rest,
    outcome (run get_logs (store_after (run (route r) s now)) now') =
      Ok (JList (Handlers.log_dict row :: rest))
    /\ log_created_at row = now
    /\ logs (store_after (run (route r) s now)) = logs s ++ [row].
Proof.
  intros H Hr Hold.
  destruct (response_log_row_at r s now response H Hr) as [level [message E]].
  rewrite run_get_logs. unfold outcome. cbn [fst]. rewrite E.
  unfold order_by_created_at_desc. rewrite fold_left_app. cbn [fold_left].
  rewrite insert_desc_newest.
  - eexists. eexists. split; [reflexivity|]. split; reflexivity.
  - cbn [new_log_row log_created_at].
    apply Forall_forall. intros x Hx.
    assert (Hin : In x (logs s ++ [])).
    { eapply Permutation_in; [apply Permutation_sym; apply fold_insert_perm|].
      exact Hx. }
    rewrite app_nil_r in Hin.
    exact (proj1 (Forall_forall _ _) Hold x Hin).
Qed.

Lemma latest_request_listed_first_witness :
  exists row rest,
    outcome (run get_logs
               (store_after (run (route (GET_category 7)) store_with_block
                               "2024-05-01 10:00:07"))
               "2024-05-01 10:00:08") = Ok (JList (Handlers.log_dict row :: rest))
    /\ log_created_at row = "2024-05-01 10:00:07".
Proof.
  assert (Hr : GET_category 7 <> GET_logs) by discriminate.
  assert (Hold : Forall (fun x => String.ltb (log_created_at x) "2024-05-01 10:00:07" = true)
                   (logs store_with_block)).
  { repeat constructor. }
  destruct (latest_request_listed_first (GET_category 7) store_with_block
              "2024-05-01 10:00:07" "2024-05-01 10:00:08"
              (Handlers.error "Category 7 not found") eq_refl Hr Hold)
    as [row [rest [H1 [H2 _]]]].
  exists row, rest. split; [exact H1 | exact H2].
Defined.

(** ** The logging helpers on their own *)






(** ** Which requests raise *)

(** The integers of a request that are bound to a query, in the order
    they are bound. *)
Definition ints_in_range (r : request) : bool :=
  match r with
  | GET_category i | PUT_category i _ | DELETE_category i | DELETE_block i =>
      sqlite_int i
  | POST_blocks b => sqlite_int (category_id b)
  | PUT_block i b => sqlite_int (category_id b) && sqlite_int i
  | GET_categories | POST_categories _ | GET_blocks | GET_logs => true
  end.

(** The strings of a request body, all of which its INSERT or UPDATE
    binds. *)
Definition strings_encodable (r : request) : bool :=
  match r with
  | POST_categories c | PUT_category _ c => utf8_encodable (name c)
  | POST_blocks b | PUT_block _ b =>
      utf8_encodable (title b) && utf8_encodable (content b)
  | _ => true
  end.

(** The INSERT of POST /blocks runs only for a category that exists. *)
Definition reaches_its_write (r : request) (s : Store) : Prop :=
  match r with
  | POST_blocks b => In (category_id b) (map cat_id (categories s))
  | _ => True
  end.

Lemma existsb_has_name_in (n : string) (l : list CategoryRow) :
  existsb (has_name n) l = true -> In n (map cat_name l).
Proof.
  intros H. apply existsb_exists in H. destruct H as [r [Hr Hp]].
  unfold has_name in Hp. apply String.eqb_eq in Hp. rewrite <- Hp.
  apply in_map. assumption.
Qed.

Lemma update_conflict_rows (i : Z) (n : string) (l : list CategoryRow) :
  (existsb (has_id i) l
   && existsb (fun r => negb (has_id i r) && has_name n r) l)%bool = true ->
  In i (map cat_id l)
  /\ exists row, In row l /\ cat_id row <> i /\ cat_name row = n.
Proof.
  intros H. apply andb_true_iff in H. destruct H as [H1 H2].
  apply existsb_exists in H1. destruct H1 as [r [Hr Hp]].
  apply existsb_exists in H2. destruct H2 as [r' [Hr' Hp']].
  apply andb_true_iff in Hp'. destruct Hp' as [Hq1 Hq2].
  unfold has_id in *. unfold has_name in *.
  apply Z.eqb_eq in Hp. apply negb_true_iff in Hq1. apply Z.eqb_neq in Hq1.
  apply String.eqb_eq in Hq2. split.
  - rewrite <- Hp. apply in_map. assumption.
  - exists r'. auto.
Qed.

Lemma find_present_some (i : Z) (l : list CategoryRow) :
  In i (map cat_id l) -> find (has_id i) l <> None.
Proof.
  intros Hin Hf. apply existsb_has_id_present in Hin.
  apply existsb_exists in Hin. destruct Hin as [r [Hr Hp]].
  rewrite (find_none _ _ Hf r Hr) in Hp. discriminate Hp.
Qed.

(** Rewrites the tests a path has taken into the goal. *)
Ltac use_tests :=
  repeat match goal with
         | H : sqlite_int _ = _ |- _ => rewrite H; clear H
         | H : utf8_encodable _ = _ |- _ => rewrite H; clear H
         end;
  reflexivity.

(** A request raises in four situations only: an integer outside the
    signed 64-bit range (OverflowError), a body string UTF-8 cannot
    encode (UnicodeEncodeError), POST /categories with a name that is
    taken (OperationalError), and PUT /categories/{id} of an existing
    category with the name another category has (IntegrityError).  Every
    other request returns a response.  An out-of-range integer always
    makes the request raise, with OverflowError unless an unencodable
    string is bound before it; an unencodable body string always makes a
    request whose integers are in range raise, except in POST /blocks
    for a category that does not exist, which never binds the strings. *)
Theorem requests_that_raise (r : request) (s : Store) (now : string) :
  (forall e, outcome (run (route r) s now) = Raise e ->
     (e = OverflowError /\ ints_in_range r = false)
     \/ (e = UnicodeEncodeError /\ strings_encodable r = false)
     \/ (e = OperationalError
         /\ exists c, r = POST_categories c /\ In (name c) (map cat_name (categories s)))
     \/ (e = IntegrityError
         /\ exists i c,
              r = PUT_category i c /\ In i (map cat_id (categories s))
              /\ exists row, In row (categories s) /\ cat_id row <> i
                             /\ cat_name row = name c))
  /\ (ints_in_range r = false ->
      (outcome (run (route r) s now) = Raise OverflowError
       \/ outcome (run (route r) s now) = Raise UnicodeEncodeError)
      /\ (strings_encodable r = true ->
          outcome (run (route r) s now) = Raise OverflowError))
  /\ (strings_encodable r = false -> ints_in_range r = true ->
      reaches_its_write r s ->
      outcome (run (route r) s now) = Raise UnicodeEncodeError).
Proof.
  split; [|split].
  - intros e. destruct r; crunch; intros H; try discriminate H; injection H as <-;
      cbn [ints_in_range strings_encodable].
    all: first
           [ solve [left; split; [reflexivity | use_tests]]
           | solve [right; left; split; [reflexivity | use_tests]]
           | right; right; left; split; [reflexivity|];
             eexists; split; [reflexivity|];
             apply existsb_has_name_in; assumption
           | right; right; right; split; [reflexivity|];
             eexists; eexists; split; [reflexivity|];
             apply update_conflict_rows; assumption ].
  - destruct r; cbn [ints_in_range strings_encodable]; intros Hr;
      try discriminate Hr; revert Hr; crunch; cbn [andb]; intros Hr;
      try discriminate Hr; split; auto; intros Hs; try discriminate Hs;
      reflexivity.
  - destruct r; cbn [ints_in_range strings_encodable reaches_its_write];
      intros Hs; try discriminate Hs; intros Hr Hw; revert Hs Hr; crunch;
      cbn [andb]; intros Hs Hr; try discriminate Hs; try discriminate Hr;
      try reflexivity.
    all: exfalso; eapply find_present_some; eassumption.
Qed.

Definition unencodable_block : Block :=
  {| category_id := 1; title := lone_surrogate; content := "C" |}.

Lemma requests_that_raise_witness :
  outcome (run (route (PUT_block (2 ^ 63) block_T)) store_with_block
             "2024-05-01 10:00:05") = Raise OverflowError
  /\ outcome (run (route (POST_blocks unencodable_block)) store_with_block
                "2024-05-01 10:00:05") = Raise UnicodeEncodeError.
Proof.
  split.
  - exact (proj2 (proj1 (proj2 (requests_that_raise (PUT_block (2 ^ 63) block_T)
                                  store_with_block "2024-05-01 10:00:05")) eq_refl)
             eq_refl).
  - assert (Hw : reaches_its_write (POST_blocks unencodable_block) store_with_block)
      by (left; reflexivity).
    exact (proj2 (proj2 (requests_that_raise (POST_blocks unencodable_block)
                           store_with_block "2024-05-01 10:00:05")) eq_refl eq_refl Hw).
Defined.

(** ** What the tables always satisfy *)

(** The constraints of the schema: ids are primary keys, category names
    are unique, and no id exceeds its table's AUTOINCREMENT counter. *)
Record store_ok (s : Store) : Prop := {
  ok_category_ids : NoDup (map cat_id (categories s));
  ok_category_names : NoDup (map cat_name (categories s));
  ok_block_ids : NoDup (map blk_id (blocks s));
  ok_log_ids : NoDup (map log_id (logs s));
  ok_category_seq : Forall (fun i => i <= seq_categories s) (map cat_id (categories s));
  ok_block_seq : Forall (fun i => i <= seq_blocks s) (map blk_id (blocks s));
  ok_log_seq : Forall (fun i => i <= seq_logs s) (map log_id (logs s))
}.

Lemma NoDup_snoc {A} (l : list A) (x : A) : NoDup l -> ~ In x l -> NoDup (l ++ [x]).
Proof.
  induction l as [|y l IH]; cbn; intros Hn Hx.
  - constructor; [tauto|constructor].
  - inversion_clear Hn. constructor.
    + rewrite in_app_iff. cbn. intros [H'|[H'|[]]]; [tauto|]. subst. tauto.
    + apply IH; tauto.
Qed.

Lemma next_rowid_not_in (ids : list Z) (seq : Z) : ~ In (next_rowid ids seq) ids.
Proof. intros H. apply (next_rowid_fresh _ seq) in H. lia. Qed.

Lemma Forall_le_snoc (ids : list Z) (seq : Z) :
  Forall (fun i => i <= next_rowid ids seq) (ids ++ [next_rowid ids seq]).
Proof.
  apply Forall_app. split.
  - apply Forall_forall. intros x H. apply (next_rowid_fresh _ seq) in H. lia.
  - constructor; [lia|constructor].
Qed.

Lemma not_taken_name (n : string) (l : list CategoryRow) :
  existsb (has_name n) l = false -> ~ In n (map cat_name l).
Proof.
  intros H Hin. apply existsb_has_name_taken in Hin. congruence.
Qed.

(** Deleting rows keeps what holds of the keys of a table. *)
Section KeptRows.

Context {Row Key : Type}.
Variables (key : Row -> Key) (keep : Row -> bool).

Lemma kept_key_was_there (rows : list Row) (k : Key) :
  In k (map key (filter keep rows)) -> In k (map key rows).
Proof.
  intros Hk. apply in_map_iff in Hk. destruct Hk as [row [Ek Hrow]].
  apply filter_In in Hrow. rewrite <- Ek. apply in_map. tauto.
Qed.

Lemma kept_keys_distinct (rows : list Row) :
  NoDup (map key rows) -> NoDup (map key (filter keep rows)).
Proof.
  induction rows as [|row rows IH]; cbn [map filter]; intros Hd; [constructor|].
  inversion_clear Hd as [|? ? Hfresh Hrest].
  destruct (keep row); cbn [map]; [|auto].
  constructor; [|auto].
  intros Hk. apply Hfresh. apply kept_key_was_there. exact Hk.
Qed.

Lemma kept_keys_bounded (bound : Key -> Prop) (rows : list Row) :
  Forall bound (map key rows) -> Forall bound (map key (filter keep rows)).
Proof.
  intros Hb. apply Forall_forall. intros k Hk.
  apply kept_key_was_there in Hk. exact (proj1 (Forall_forall _ _) Hb k Hk).
Qed.

End KeptRows.

Lemma map_cat_id_update (i : Z) (n : string) (l : list CategoryRow) :
  map cat_id (map (update_category_row i n) l) = map cat_id l.
Proof.
  induction l as [|r l IH]; cbn; [reflexivity|]. rewrite IH. f_equal.
  unfold update_category_row. destruct (has_id i r); reflexivity.
Qed.

Lemma map_blk_id_update (i : Z) (b : Block) (l : list BlockRow) :
  map blk_id (map (update_block_row i b) l) = map blk_id l.
Proof.
  induction l as [|r l IH]; cbn; [reflexivity|]. rewrite IH. f_equal.
  unfold update_block_row. destruct (blk_has_id i r); reflexivity.
Qed.

(** A rename that passes the UNIQUE check keeps the names distinct. *)
Lemma updated_names_NoDup (i : Z) (n : string) (l : list CategoryRow) :
  NoDup (map cat_id l) -> NoDup (map cat_name l) ->
  (existsb (has_id i) l
   && existsb (fun r => negb (has_id i r) && has_name n r) l)%bool = false ->
  NoDup (map cat_name (map (update_category_row i n) l)).
Proof.
  intros Hid Hnm Hc.
  destruct (existsb (has_id i) l) eqn:He.
  2:{ assert (Ha : ~ In i (map cat_id l)).
      { intros Hin. apply existsb_has_id_present in Hin. congruence. }
      rewrite (map_update_category_absent i n l Ha). assumption. }
  cbn in Hc. clear He.
  assert (Hother : forall r, In r l -> cat_id r <> i -> cat_name r <> n).
  { intros r Hr Hne E.
    rewrite (other_row_named i n l r Hr Hne E) in Hc. discriminate Hc. }
  clear Hc. induction l as [|r l IH]; cbn; [constructor|].
  cbn in Hid, Hnm. inversion_clear Hid. inversion_clear Hnm.
  assert (IH' := IH ltac:(assumption) ltac:(assumption)
                   (fun x Hx => Hother x (or_intror Hx))).
  constructor; [|exact IH'].
  unfold update_category_row at 1. unfold has_id at 1.
  destruct (Z.eqb_spec (cat_id r) i) as [E|E]; cbn [cat_name].
  - assert (Ha : ~ In i (map cat_id l)) by (rewrite <- E; assumption).
    rewrite (map_update_category_absent i n l Ha).
    intros Hin. apply in_map_iff in Hin. destruct Hin as [x [Ex Hx]].
    apply (Hother x (or_intror Hx)); [|assumption].
    intros Ei. apply Ha. rewrite <- Ei. apply in_map. assumption.
  - intros Hin. apply in_map_iff in Hin. destruct Hin as [x [Ex Hx]].
    apply in_map_iff in Hx. destruct Hx as [y [Ey Hy]]. subst x.
    unfold update_category_row in Ex. destruct (has_id i y); cbn [cat_name] in Ex.
    + apply (Hother r (or_introl eq_refl) E). symmetry. assumption.
    + match goal with H : ~ In (cat_name r) _ |- _ => apply H end.
      rewrite <- Ex. apply in_map. assumption.
Qed.

Lemma append_log_ok (s : Store) (level message now : string) :
  store_ok s -> store_ok (append_log level message now s).
Proof.
  intros [H1 H2 H3 H4 H5 H6 H7].
  constructor;
    cbn [append_log categories blocks logs seq_categories seq_blocks seq_logs
         new_log_row log_id]; try assumption.
  - rewrite map_app. cbn. apply NoDup_snoc; [assumption|apply next_rowid_not_in].
  - rewrite map_app. cbn. apply Forall_le_snoc.
Qed.

Lemma request_keeps_store_ok (r : request) (s : Store) (now : string) :
  store_ok s -> store_ok (store_after (run (route r) s now)).
Proof.
  intros Hok.
  destruct r; crunch; rewrite ?store_eta; try assumption;
    try apply append_log_ok; try assumption.
  all: destruct Hok as [H1 H2 H3 H4 H5 H6 H7]; constructor;
    cbn [categories blocks logs seq_categories seq_blocks seq_logs]; try assumption.
  all: rewrite ?map_app, ?map_cat_id_update, ?map_blk_id_update;
    cbn [map cat_id cat_name blk_id]; try assumption.
  all: try (apply NoDup_snoc; [assumption|];
            first [apply next_rowid_not_in | apply not_taken_name; assumption]).
  all: try apply Forall_le_snoc.
  all: try (apply kept_keys_distinct; assumption).
  all: try (apply kept_keys_bounded; assumption).
  all: apply updated_names_NoDup; assumption.
Qed.

(** Whatever requests are served, one after the other, from a store that
    satisfies the schema's constraints, the store satisfies them
    afterwards: ids stay unique in each table, category names stay
    unique, and no id exceeds the counter of its table. *)
Theorem serve_keeps_store_ok (requests : list (request * string)) (s : Store) :
  store_ok s -> store_ok (serve requests s).
Proof.
  revert s. induction requests as [|[r now] rest IH]; intros s Hok; cbn [serve];
    [assumption|].
  apply IH. apply request_keeps_store_ok. assumption.
Qed.

Definition morning_requests : list (request * string) :=
  [(POST_categories Recipes, "2024-05-01 10:00:00");
   (POST_blocks block_T, "2024-05-01 10:00:01");
   (POST_categories Recipes, "2024-05-01 10:00:02");
   (PUT_category 1 Notes, "2024-05-01 10:00:03");
   (DELETE_category 1, "2024-05-01 10:00:04");
   (POST_categories Recipes, "2024-05-01 10:00:05")].

Lemma serve_keeps_store_ok_witness :
  store_ok (serve morning_requests empty_store).
Proof.
  apply (serve_keeps_store_ok morning_requests empty_store).
  constructor; cbn; constructor.
Defined.

(** An id is never handed out twice.  From a store that satisfies the
    schema's constraints, whatever requests are served in between
    (deletes included), a category or block created later gets an id
    larger than every id the table held at the start. *)
Theorem ids_never_reused (requests : list (request * string)) (s : Store) (now : string) :
  store_ok s ->
  (forall (c : Category) (j : Z),
      outcome (run (add_category c) (serve requests s) now) =
        Ok (JDict [("id", JInt j); ("name", JStr (name c))]) ->
      forall row, In row (categories s) -> cat_id row < j)
  /\ (forall (b : Block) (j : Z),
         outcome (run (add_block b) (serve requests s) now) = Ok (Handlers.block_dict j b) ->
         forall row, In row (blocks s) -> blk_id row < j).
Proof.
  intros Hok. pose proof (serve_counters_grow requests s) as [Hc Hb].
  split.
  - intros c j H row Hrow.
    assert (Hle : cat_id row <= seq_categories s).
    { apply (proj1 (Forall_forall _ _) (ok_category_seq s Hok)).
      apply in_map. assumption. }
    revert H. crunch; intros H; try discriminate H. injection H as <-.
    pose proof (next_rowid_above_seq (map cat_id (categories (serve requests s)))
                  (seq_categories (serve requests s))). lia.
  - intros b j H row Hrow.
    assert (Hle : blk_id row <= seq_blocks s).
    { apply (proj1 (Forall_forall _ _) (ok_block_seq s Hok)).
      apply in_map. assumption. }
    revert H. crunch; intros H; try discriminate H. injection H as <-.
    pose proof (next_rowid_above_seq (map blk_id (blocks (serve requests s)))
                  (seq_blocks (serve requests s))). lia.
Qed.

Lemma ids_never_reused_witness :
  outcome (run (add_category Notes)
             (serve [(DELETE_category 1, "2024-05-01 10:00:03")] store_with_block)
             "2024-05-01 10:00:04") =
    Ok (JDict [("id", JInt 2); ("name", JStr "Notes")])
  /\ cat_id {| cat_id := 1; cat_name := "Recipes" |} < 2.
Proof.
  assert (Hok : store_ok store_with_block).
  { constructor; cbn; repeat constructor; cbn; try tauto; try lia. }
  split; [reflexivity|].
  apply (proj1 (ids_never_reused [(DELETE_category 1, "2024-05-01 10:00:03")]
                  store_with_block "2024-05-01 10:00:04" Hok) Notes 2).
  - reflexivity.
  - left. reflexivity.
Defined.
